(** * Regulatory rule extraction pipeline: a shallow embedding

    The development follows the Python sources:
    - [app/schemas/response.py]   : [ChangeStatus], [Rule], [ProcessedRule],
                                    [ExtractionResponse];
    - [app/services/gemini_service.py] : rule extraction and the
                                    reconciliation of rule sets;
    - [app/services/firecrawl_service.py] : the scraping service;
    - [app/graph/state.py], [app/graph/nodes.py], [app/graph/workflow.py] :
                                    the four-node pipeline.

    The remote services (the Firecrawl agent, the Gemini model, the JSON
    validation done by pydantic) are not part of the repository: they are
    the fields of an environment [Env], over which every statement is
    quantified.  A Python exception is a value [Raised msg]; awaiting a
    call is sequencing in a state monad whose state is the log of the
    requests sent to the model. *)

From stdpp Require Import gmap strings list.

(** ** Data model ([app/schemas/response.py]) *)

Inductive ChangeStatus := NEW | UPDATED | UNCHANGED.

#[global] Instance ChangeStatus_eq_dec : EqDecision ChangeStatus.
Proof. solve_decision. Defined.

Module Rule.
Record t := mk {
  rule_number : string;
  effective_date : string;
  rule_text : string;
  rule_text_citation : string
}.
End Rule.
Abbreviation Rule := Rule.t.

Module ProcessedRule.
Record t := mk {
  rule_name : string;
  rule_description : string;
  rule_text_citation : string;
  status : ChangeStatus;
  change_reason : option string
}.
End ProcessedRule.
Abbreviation ProcessedRule := ProcessedRule.t.

Module ExtractionResponse.
Record t := mk {
  success : bool;
  state : string;
  product_type : string;
  source_url : string;
  total_rules_extracted : nat;
  rules : list ProcessedRule;
  error : option string
}.
End ExtractionResponse.
Abbreviation ExtractionResponse := ExtractionResponse.t.

(** ** Structured outputs of the model ([app/services/gemini_service.py]) *)

Module ExtractedRule.
Record t := mk {
  rule_name : string;
  rule_description : string
}.
End ExtractedRule.
Abbreviation ExtractedRule := ExtractedRule.t.

Module RuleExtractionResult.
Record t := mk { rules : list ExtractedRule }.
End RuleExtractionResult.
Abbreviation RuleExtractionResult := RuleExtractionResult.t.

(** [change_reason] is [Optional[str]] with default [None]: the schema sent
    to the model does not require it, whatever [are_equivalent] is. *)
Module RuleComparisonResult.
Record t := mk {
  are_equivalent : bool;
  change_reason : option string
}.
End RuleComparisonResult.
Abbreviation RuleComparisonResult := RuleComparisonResult.t.

(** ** Exceptions, truthiness *)

(** The outcome of a Python call: it raises [Exception(msg)] (we keep
    [str(e)]) or it returns. *)
Inductive Reply (A : Type) : Type :=
| Raised (msg : string)
| Returned (a : A).
Arguments Raised {A} msg.
Arguments Returned {A} a.

(** [bool(s)] for a string, [bool(l)] for a list, [bool(o)] for an
    [Optional[str]]. *)
Definition truthy_str (s : string) : bool :=
  match s with EmptyString => false | String _ _ => true end.

Definition truthy_list {A} (l : list A) : bool :=
  match l with [] => false | _ :: _ => true end.

Definition truthy_opt (o : option string) : bool :=
  match o with None => false | Some s => truthy_str s end.

Definition nl : string := String (Ascii.ascii_of_nat 10) EmptyString.
Definition dq : string := String (Ascii.ascii_of_nat 34) EmptyString.

(** A triple-quoted literal, given line by line. *)
Definition text_of_lines (ls : list string) : string := String.concat nl ls.

(** ** The environment: remote services and the request log *)

Inductive Schema := ExtractionSchema | ComparisonSchema.

#[global] Instance Schema_eq_dec : EqDecision Schema.
Proof. solve_decision. Defined.

(** One request to [client.aio.models.generate_content]: the JSON schema
    asked for and the prompt. *)
Definition Call : Type := Schema * string.

(** The state threaded through a request: the calls made so far, oldest
    first. *)
Definition World : Type := list Call.

(** What the Firecrawl agent may hand back: an object whose [data] is a
    non-empty dict, a plain dict, or anything else.  [None] for the rule
    list is a dict without the key ['rules'].  A record of the list is a
    [Dict[str, str]]. *)
Definition RuleData : Type := gmap string string.

Inductive AgentResult :=
| ResultWithData (rules : option (list RuleData))
| ResultDict (rules : option (list RuleData))
| ResultOther.

Record Env := {
  (** [FirecrawlService()] and [GeminiService()] as built by the lazy
      getters of [nodes.py]; they read the settings and may raise. *)
  firecrawl_init : Reply unit;
  gemini_init : Reply unit;
  (** [self.app.agent(urls=[url], prompt=prompt, schema=schema)] *)
  firecrawl_agent : string -> string -> Reply AgentResult;
  (** [generate_content(...)]: given the calls already made, the schema and
      the prompt, it raises or returns [response.text] *)
  gemini_generate : World -> Schema -> string -> Reply (option string);
  (** [RuleExtractionResult.model_validate_json] and
      [RuleComparisonResult.model_validate_json] *)
  validate_extraction : string -> Reply RuleExtractionResult;
  validate_comparison : string -> Reply RuleComparisonResult
}.

(** ** A state monad for awaited calls, with exceptions as values *)

Definition M (A : Type) : Type := World -> A * World.

Definition ret {A} (a : A) : M A := fun w => (a, w).

Definition bind {A B} (c : M A) (k : A -> M B) : M B :=
  fun w => let (a, w') := c w in k a w'.

Notation "'let*' x ':=' c 'in' k" := (bind c (fun x => k))
  (at level 10, x name, c at level 100, k at level 200).
Notation "'let*' ' p ':=' c 'in' k" :=
  (bind c (fun x => match x with p => k end))
  (at level 10, p pattern, c at level 100, k at level 200).

Definition raise {A} (msg : string) : M (Reply A) := ret (Raised msg).

Definition returns {A} (a : A) : M (Reply A) := ret (Returned a).

(** Sequencing inside a [try] body: the first exception ends the body. *)
Definition bind_try {A B} (c : M (Reply A)) (k : A -> M (Reply B))
  : M (Reply B) :=
  let* r := c in
  match r with
  | Raised msg => ret (Raised msg)
  | Returned a => k a
  end.

Notation "'let?' x ':=' c 'in' k" := (bind_try c (fun x => k))
  (at level 10, x name, c at level 100, k at level 200).

Notation "'let?' ' p ':=' c 'in' k" :=
  (bind_try c (fun x => match x with p => k end))
  (at level 10, p pattern, c at level 100, k at level 200).

(** [try: body  except Exception as e: handler(str(e))] *)
Definition try_except {A} (body : M (Reply A)) (handler : string -> M A)
  : M A :=
  let* r := body in
  match r with
  | Raised msg => handler msg
  | Returned a => ret a
  end.

(** [try: body  except Exception as e: raise Exception(wrap(str(e)))] *)
Definition try_reraise {A} (body : M (Reply A)) (wrap : string -> string)
  : M (Reply A) :=
  let* r := body in
  match r with
  | Raised msg => raise (wrap msg)
  | Returned a => returns a
  end.

(** [for x in xs: acc = body(acc, x)], the body awaited at each turn. *)
Fixpoint for_each {A B} (xs : list A) (acc : B) (body : B -> A -> M B)
  : M B :=
  match xs with
  | [] => ret acc
  | x :: xs' => let* acc' := body acc x in for_each xs' acc' body
  end.

(** ** [GeminiService] ([app/services/gemini_service.py]) *)

Module GeminiService.
Section WithEnv.

Variable env : Env.

Definition generate_content (schema : Schema) (prompt : string)
  : M (Reply (option string)) :=
  fun w => (gemini_generate env w schema prompt, w ++ [(schema, prompt)]).

(** The part of both [try] bodies between the call and the validation:
    [if not response.text: raise Exception(...)]. *)
Definition response_text (text : option string) : M (Reply string) :=
  match text with
  | Some s => if truthy_str s then returns s
              else raise "Gemini returned empty response"
  | None => raise "Gemini returned empty response"
  end.

Definition _build_extraction_prompt (rule_text : string) : string :=
  text_of_lines [
    "You are a legal regulatory expert analyzing marijuana labeling requirements.";
    EmptyString;
    "Extract all individual labeling requirements from the following regulatory text. Each requirement should be a separate rule with:";
    "1. A short, descriptive rule_name (e.g., " +:+ dq +:+ "THC Content Labeling" +:+ dq
      +:+ ", " +:+ dq +:+ "Warning Statement Requirement" +:+ dq
      +:+ ", " +:+ dq +:+ "Font Size Requirement" +:+ dq +:+ ")";
    "2. A clear rule_description that explains the requirement in plain language AND includes specific details like numerical limits, required text, or exact specifications";
    EmptyString;
    "REGULATORY TEXT:";
    rule_text;
    EmptyString;
    "Guidelines:";
    "- Extract EACH distinct requirement as a separate rule";
    "- Include specific numerical values, percentages, or measurements when present";
    "- Include any required warning text verbatim";
    "- Be comprehensive - don't skip any requirements";
    "- Use clear, professional language in descriptions";
    EmptyString;
    "Extract all rules from this text."
  ].

(** [ProcessedRule(rule_name=..., rule_description=...,
    rule_text_citation=rule_text_citation, status=ChangeStatus.NEW,
    change_reason=None)] for one extracted rule. *)
Definition processed_of_extracted (rule_text_citation : string)
  (extracted : ExtractedRule) : ProcessedRule :=
  ProcessedRule.mk (ExtractedRule.rule_name extracted)
                   (ExtractedRule.rule_description extracted)
                   rule_text_citation NEW None.

Definition extract_rules_from_text (rule_text rule_text_citation : string)
  : M (Reply (list ProcessedRule)) :=
  let prompt := _build_extraction_prompt rule_text in
  try_reraise
    (let? response := generate_content ExtractionSchema prompt in
     let? text := response_text response in
     let? result := ret (validate_extraction env text) in
     returns (foldl (fun processed_rules extracted =>
                       processed_rules
                         ++ [processed_of_extracted rule_text_citation extracted])
                    [] (RuleExtractionResult.rules result)))
    (fun e => "Rule extraction failed: " +:+ e).

Definition extract_rules_from_scraped_data (scraped_rules : list Rule)
  : M (list ProcessedRule) :=
  for_each scraped_rules []
    (fun all_processed_rules scraped_rule =>
       try_except
         (let? extracted_rules := extract_rules_from_text
                                (Rule.rule_text scraped_rule)
                                (Rule.rule_text_citation scraped_rule) in
          returns (all_processed_rules ++ extracted_rules))
         (fun _ => ret all_processed_rules)).

Definition _build_comparison_prompt (existing_rule new_rule : ProcessedRule)
  : string :=
  text_of_lines [
    "You are a legal regulatory expert comparing two versions of marijuana labeling requirements.";
    EmptyString;
    "Compare these two rules and determine if they are semantically equivalent (same requirements, possibly different wording) or if there are substantive differences.";
    EmptyString;
    "EXISTING RULE:";
    "- Name: " +:+ ProcessedRule.rule_name existing_rule;
    "- Description: " +:+ ProcessedRule.rule_description existing_rule;
    EmptyString;
    "NEW RULE:";
    "- Name: " +:+ ProcessedRule.rule_name new_rule;
    "- Description: " +:+ ProcessedRule.rule_description new_rule;
    EmptyString;
    "Consider the following when comparing:";
    "1. Core requirements and restrictions";
    "2. Numerical thresholds or limits";
    "3. Required disclosures or warnings";
    "4. Scope of application";
    EmptyString;
    "Minor wording changes that don't affect the legal meaning should be considered equivalent.";
    "If there are differences, explain specifically what changed."
  ].

Definition compare_rules (existing_rule new_rule : ProcessedRule)
  : M (ChangeStatus * option string) :=
  let prompt := _build_comparison_prompt existing_rule new_rule in
  try_except
    (let? response := generate_content ComparisonSchema prompt in
     let? text := response_text response in
     let? result := ret (validate_comparison env text) in
     if RuleComparisonResult.are_equivalent result
     then returns (UNCHANGED, None)
     else returns (UPDATED, RuleComparisonResult.change_reason result))
    (fun e => ret (UPDATED, Some ("Comparison error: " +:+ e))).

(** [{rule.rule_text_citation: rule for rule in existing_rules}]: the
    comprehension stores the pairs from left to right. *)
Definition existing_map_of (existing_rules : list ProcessedRule)
  : gmap string ProcessedRule :=
  foldl (fun m rule => <[ProcessedRule.rule_text_citation rule := rule]> m)
        ∅ existing_rules.

(** One turn of the loop of [compare_rule_sets]. *)
Definition compare_rule_sets_body (existing_map : gmap string ProcessedRule)
  (final_rules : list ProcessedRule) (new_rule : ProcessedRule)
  : M (list ProcessedRule) :=
  let citation := ProcessedRule.rule_text_citation new_rule in
  match existing_map !! citation with
  | Some existing_rule =>
      let* '(status, change_reason) := compare_rules existing_rule new_rule in
      let final_rule :=
        ProcessedRule.mk (ProcessedRule.rule_name new_rule)
                         (ProcessedRule.rule_description new_rule)
                         (ProcessedRule.rule_text_citation new_rule)
                         status change_reason in
      ret (final_rules ++ [final_rule])
  | None =>
      let final_rule :=
        ProcessedRule.mk (ProcessedRule.rule_name new_rule)
                         (ProcessedRule.rule_description new_rule)
                         (ProcessedRule.rule_text_citation new_rule)
                         NEW None in
      ret (final_rules ++ [final_rule])
  end.

Definition compare_rule_sets (existing_rules new_rules : list ProcessedRule)
  : M (list ProcessedRule) :=
  let existing_map := existing_map_of existing_rules in
  for_each new_rules [] (compare_rule_sets_body existing_map).

End WithEnv.
End GeminiService.

(** ** Configuration ([app/config.py]) *)

Inductive USState : Set := MONTANA.

Definition USState_value (s : USState) : string :=
  match s with MONTANA => "montana" end.

(** [prompt] is the template; applying it is
    [prompt.format(product_description=..., url=...)]. *)
Module StateConfig.
Record t := mk {
  url : string;
  prompt : string -> string -> string
}.
End StateConfig.
Abbreviation StateConfig := StateConfig.t.

Definition STATE_CONFIGS (state : USState) : option StateConfig :=
  match state with
  | MONTANA =>
      Some (StateConfig.mk
        "https://rules.mt.gov/browse/collections/aec52c46-128e-4279-9068-8af5d5432d74/sections/e99998bd-fc2a-4eed-9405-9cfd464de88e"
        (fun product_description url =>
           "Extract the complete, verbatim text content from the PDF versions of the Administrative Rules of Montana (ARM) Chapter 42.39 specifically for 'General labeling requirements' and 'Labeling requirements for "
           +:+ product_description
           +:+ "'. For each rule, include the rule number, the effective date, and the full body text. You MUST include all subsections, legal citations, history and authority sections found at the bottom of the rule. Do not summarize or omit any parts of the document. NOTE the PDF is being rendered by Chrome's built-in PDF viewer which uses an embed plugin(USE THE scrape_raw TOOL). Maintain the extraction within the target URL:"
           +:+ url))
  end.

(** The text of the [ValueError] is only logged; every member of
    [USState] has an entry, so the branch is there for the shape of the
    code. *)
Definition get_state_config (state : USState) : Reply StateConfig :=
  match STATE_CONFIGS state with
  | None => Raised ("State '" +:+ USState_value state +:+ "' is not configured.")
  | Some c => Returned c
  end.

(** ** [FirecrawlService] ([app/services/firecrawl_service.py]) *)

Module FirecrawlService.
Section WithEnv.

Variable env : Env.

Definition PRODUCT_TYPE_DESCRIPTIONS : gmap string string :=
  list_to_map [
    ("flower", "marijuana flower, dried cannabis, and cannabis buds");
    ("concentrates", "marijuana concentrates, extracts");
    ("edibles", "marijuana edibles, cannabis-infused food products, and consumables");
    ("all", "all marijuana and cannabis products including flower, concentrates, and edibles")
  ].

Definition _build_extraction_prompt (state : USState) (product_type : string)
  : Reply (string * string) :=
  match get_state_config state with
  | Raised msg => Raised msg
  | Returned state_config =>
      let product_description :=
        default (default EmptyString (PRODUCT_TYPE_DESCRIPTIONS !! "all"))
                (PRODUCT_TYPE_DESCRIPTIONS !! product_type) in
      let prompt :=
        StateConfig.prompt state_config product_description
                           (StateConfig.url state_config) in
      Returned (prompt, StateConfig.url state_config)
  end.

(** [Rule] built from the keyword arguments in [rule_data]: the four
    fields are required; a record that lacks one raises a validation
    error, whose text is only logged. *)
Definition Rule_of_data (rule_data : RuleData) : option Rule :=
  match rule_data !! "rule_number", rule_data !! "effective_date",
        rule_data !! "rule_text", rule_data !! "rule_text_citation" with
  | Some n, Some d, Some t, Some c => Some (Rule.mk n d t c)
  | _, _, _, _ => None
  end.

Definition rules_data_of (result : AgentResult) : list RuleData :=
  match result with
  | ResultWithData rules => default [] rules
  | ResultDict rules => default [] rules
  | ResultOther => []
  end.

Definition extract_rules (state : USState) (product_type : string)
  : Reply (list Rule * string) :=
  match _build_extraction_prompt state product_type with
  | Raised msg => Raised msg
  | Returned (prompt, url) =>
      match firecrawl_agent env url prompt with
      | Raised e => Raised ("Firecrawl extraction failed: " +:+ e)
      | Returned result =>
          let rules_data := rules_data_of result in
          let rules :=
            foldl (fun rules rule_data =>
                     match Rule_of_data rule_data with
                     | Some rule => rules ++ [rule]
                     | None => rules
                     end) [] rules_data in
          Returned (rules, url)
      end
  end.

End WithEnv.
End FirecrawlService.

(** ** The pipeline state ([app/graph/state.py]) *)

Module PipelineState.
Record t := mk {
  state : USState;
  product_type : string;
  existing_rules : list ProcessedRule;
  source_url : string;
  scraped_rules : list Rule;
  processed_rules : list ProcessedRule;
  final_rules : list ProcessedRule;
  error : option string
}.
End PipelineState.
Abbreviation PipelineState := PipelineState.t.

(** [existing_rules or []] *)
Definition create_initial_state (state : USState) (product_type : string)
  (existing_rules : option (list ProcessedRule)) : PipelineState :=
  PipelineState.mk state product_type
    (match existing_rules with
     | Some l => if truthy_list l then l else []
     | None => []
     end)
    EmptyString [] [] [] None.

(** A node returns a dict with some of the keys of the state.  The state
    schema declares no reducer, so the graph engine replaces the value of
    every key the node returns, [None] included, and keeps the others. *)
Inductive Write :=
| W_scraped_rules (v : list Rule)
| W_source_url (v : string)
| W_processed_rules (v : list ProcessedRule)
| W_final_rules (v : list ProcessedRule)
| W_error (v : option string).

Definition Update : Type := list Write.

Definition apply_write (s : PipelineState) (w : Write) : PipelineState :=
  match w with
  | W_scraped_rules v =>
      PipelineState.mk (PipelineState.state s) (PipelineState.product_type s)
        (PipelineState.existing_rules s) (PipelineState.source_url s)
        v (PipelineState.processed_rules s) (PipelineState.final_rules s)
        (PipelineState.error s)
  | W_source_url v =>
      PipelineState.mk (PipelineState.state s) (PipelineState.product_type s)
        (PipelineState.existing_rules s) v
        (PipelineState.scraped_rules s) (PipelineState.processed_rules s)
        (PipelineState.final_rules s) (PipelineState.error s)
  | W_processed_rules v =>
      PipelineState.mk (PipelineState.state s) (PipelineState.product_type s)
        (PipelineState.existing_rules s) (PipelineState.source_url s)
        (PipelineState.scraped_rules s) v (PipelineState.final_rules s)
        (PipelineState.error s)
  | W_final_rules v =>
      PipelineState.mk (PipelineState.state s) (PipelineState.product_type s)
        (PipelineState.existing_rules s) (PipelineState.source_url s)
        (PipelineState.scraped_rules s) (PipelineState.processed_rules s)
        v (PipelineState.error s)
  | W_error v =>
      PipelineState.mk (PipelineState.state s) (PipelineState.product_type s)
        (PipelineState.existing_rules s) (PipelineState.source_url s)
        (PipelineState.scraped_rules s) (PipelineState.processed_rules s)
        (PipelineState.final_rules s) v
  end.

Definition apply_update (s : PipelineState) (u : Update) : PipelineState :=
  foldl apply_write s u.

(** ** The nodes ([app/graph/nodes.py]) *)

(** The comprehension shared by [compare_node] and [format_response_node]:
    a new [ProcessedRule] per rule, with status NEW and no reason. *)
Definition all_new (processed_rules : list ProcessedRule)
  : list ProcessedRule :=
  map (fun rule =>
         ProcessedRule.mk (ProcessedRule.rule_name rule)
                          (ProcessedRule.rule_description rule)
                          (ProcessedRule.rule_text_citation rule)
                          NEW None)
      processed_rules.

Module Nodes.
Section WithEnv.

Variable env : Env.

(** The getters build the service on first use and keep it; within one
    request a service is built at most once, with the outcome the
    environment gives. *)
Definition get_firecrawl_service : M (Reply unit) := ret (firecrawl_init env).
Definition get_gemini_service : M (Reply unit) := ret (gemini_init env).

Definition scrape_node (state : PipelineState) : M Update :=
  try_except
    (let us_state := PipelineState.state state in
     let product_type := PipelineState.product_type state in
     let? firecrawl_service := get_firecrawl_service in
     let? '(scraped_rules, source_url) :=
       ret (FirecrawlService.extract_rules env us_state product_type) in
     returns [W_scraped_rules scraped_rules;
              W_source_url source_url;
              W_error None])
    (fun e =>
       ret [W_scraped_rules [];
            W_source_url EmptyString;
            W_error (Some ("Scraping failed: " +:+ e))]).

Definition extract_rules_node (state : PipelineState) : M Update :=
  try_except
    (let scraped_rules := PipelineState.scraped_rules state in
     if negb (truthy_list scraped_rules)
     then returns [W_processed_rules []; W_error None]
     else
       let? gemini_service := get_gemini_service in
       let* processed_rules :=
         GeminiService.extract_rules_from_scraped_data env scraped_rules in
       returns [W_processed_rules processed_rules; W_error None])
    (fun e =>
       ret [W_processed_rules [];
            W_error (Some ("Rule extraction failed: " +:+ e))]).

Definition compare_node (state : PipelineState) : M Update :=
  try_except
    (let existing_rules := PipelineState.existing_rules state in
     let processed_rules := PipelineState.processed_rules state in
     if negb (truthy_list existing_rules)
     then returns [W_final_rules (all_new processed_rules); W_error None]
     else
       let? gemini_service := get_gemini_service in
       let* final_rules :=
         GeminiService.compare_rule_sets env existing_rules processed_rules in
       returns [W_final_rules final_rules; W_error None])
    (fun e =>
       ret [W_final_rules [];
            W_error (Some ("Comparison failed: " +:+ e))]).

Definition format_response_node (state : PipelineState) : M Update :=
  try_except
    (let existing_rules := PipelineState.existing_rules state in
     let processed_rules := PipelineState.processed_rules state in
     let final_rules := PipelineState.final_rules state in
     if negb (truthy_list existing_rules) && negb (truthy_list final_rules)
        && truthy_list processed_rules
     then returns [W_final_rules (all_new processed_rules); W_error None]
     else returns [W_error None])
    (fun e => ret [W_error (Some ("Format failed: " +:+ e))]).

Definition should_compare (state : PipelineState) : string :=
  if truthy_opt (PipelineState.error state) then "format"
  else
    let existing_rules := PipelineState.existing_rules state in
    if truthy_list existing_rules && (0 <? length existing_rules)
    then "compare"
    else "format".

End WithEnv.
End Nodes.

(** ** The workflow ([app/graph/workflow.py]) *)

Module Workflow.
Section WithEnv.

Variable env : Env.

(** Running a node: await it, then merge what it returns into the state. *)
Definition run_node (node : PipelineState -> M Update) (s : PipelineState)
  : M PipelineState :=
  let* u := node s in ret (apply_update s u).

(** The compiled graph of [create_extraction_workflow]:
    START -> scrape -> extract_rules -> (compare | format) -> format -> END,
    the branch after [extract_rules] chosen by [should_compare]. *)
Definition ainvoke (initial_state : PipelineState) : M PipelineState :=
  let* s1 := run_node (Nodes.scrape_node env) initial_state in
  let* s2 := run_node (Nodes.extract_rules_node env) s1 in
  if String.eqb (Nodes.should_compare s2) "compare"
  then
    let* s3 := run_node (Nodes.compare_node env) s2 in
    run_node (Nodes.format_response_node) s3
  else
    run_node (Nodes.format_response_node) s2.

(** The response built from the final state, the second half of
    [run_extraction_workflow]. *)
Definition response_of (state : USState) (product_type : string)
  (final_state : PipelineState) : ExtractionResponse :=
  let source_url := PipelineState.source_url final_state in
  if truthy_opt (PipelineState.error final_state)
  then
    ExtractionResponse.mk false (USState_value state) product_type source_url
                          0 [] (PipelineState.error final_state)
  else
    let final_rules := PipelineState.final_rules final_state in
    let processed_rules := PipelineState.processed_rules final_state in
    let final_rules :=
      if negb (truthy_list final_rules) && truthy_list processed_rules
      then processed_rules else final_rules in
    ExtractionResponse.mk true (USState_value state) product_type source_url
                          (length final_rules) final_rules None.

Definition run_extraction_workflow (state : USState) (product_type : string)
  (existing_rules : option (list ProcessedRule)) : M ExtractionResponse :=
  let initial_state := create_initial_state state product_type existing_rules in
  let* final_state := ainvoke initial_state in
  ret (response_of state product_type final_state).

End WithEnv.
End Workflow.

(** ** [compare_rule_sets] over a store of objects

    The functions above treat a [ProcessedRule] as a value.  Python passes
    references: [existing_rules] and [new_rules] are list objects holding
    references to instances, which may be shared.  Here the same function
    is written over a store, to state what it writes.  An instance and a
    list are known by their address, the order of their creation. *)

Module Store.

Abbreviation ref := nat.

Record t := mk {
  (** the [ProcessedRule] instances *)
  objects : list ProcessedRule;
  (** the list objects: each holds references to instances *)
  lists : list (list ref);
  (** the requests sent to the model *)
  calls : World
}.

(** A computation on the store; [None] is the use of a reference to
    nothing, which a Python program cannot hold. *)
Definition H (A : Type) : Type := t -> option (A * t).

Definition ret {A} (a : A) : H A := fun h => Some (a, h).

Definition bind {A B} (c : H A) (k : A -> H B) : H B :=
  fun h => match c h with
           | Some (a, h') => k a h'
           | None => None
           end.

Notation "'let!' x ':=' c 'in' k" := (bind c (fun x => k))
  (at level 10, x name, c at level 100, k at level 200).
Notation "'let!' ' p ':=' c 'in' k" :=
  (bind c (fun x => match x with p => k end))
  (at level 10, p pattern, c at level 100, k at level 200).

(** Reading the attributes of an instance; iterating over a list. *)
Definition attributes (r : ref) : H ProcessedRule :=
  fun h => match objects h !! r with
           | Some o => Some (o, h)
           | None => None
           end.

Definition elements (l : ref) : H (list ref) :=
  fun h => match lists h !! l with
           | Some xs => Some (xs, h)
           | None => None
           end.

(** [ProcessedRule(...)] makes a new instance; [[]] a new list. *)
Definition new_object (o : ProcessedRule) : H ref :=
  fun h => Some (length (objects h),
                 mk (objects h ++ [o]) (lists h) (calls h)).

Definition new_list : H ref :=
  fun h => Some (length (lists h),
                 mk (objects h) (lists h ++ [[]]) (calls h)).

(** [l.append(x)] writes into the list object [l]. *)
Definition append (l : ref) (x : ref) : H unit :=
  fun h => match lists h !! l with
           | Some xs => Some (tt, mk (objects h) (<[l := xs ++ [x]]> (lists h))
                                     (calls h))
           | None => None
           end.

(** An awaited call to the model touches the log only. *)
Definition await {A} (c : M A) : H A :=
  fun h => let (a, w) := c (calls h) in
           Some (a, mk (objects h) (lists h) w).

Fixpoint for_each {A B} (xs : list A) (acc : B) (body : B -> A -> H B)
  : H B :=
  match xs with
  | [] => ret acc
  | x :: xs' => let! acc' := body acc x in for_each xs' acc' body
  end.

Section WithEnv.

Variable env : Env.

(** [compare_rules] reads the name and the description of both rules to
    build the prompt, and awaits the model. *)
Definition compare_rules (existing_rule new_rule : ref)
  : H (ChangeStatus * option string) :=
  let! e := attributes existing_rule in
  let! n := attributes new_rule in
  await (GeminiService.compare_rules env e n).

Definition compare_rule_sets_body (existing_map : gmap string ref)
  (final_rules : ref) (_ : unit) (new_rule : ref) : H unit :=
  let! n := attributes new_rule in
  let citation := ProcessedRule.rule_text_citation n in
  match existing_map !! citation with
  | Some existing_rule =>
      let! '(status, change_reason) := compare_rules existing_rule new_rule in
      let! n := attributes new_rule in
      let! final_rule :=
        new_object (ProcessedRule.mk (ProcessedRule.rule_name n)
                                     (ProcessedRule.rule_description n)
                                     (ProcessedRule.rule_text_citation n)
                                     status change_reason) in
      append final_rules final_rule
  | None =>
      let! final_rule :=
        new_object (ProcessedRule.mk (ProcessedRule.rule_name n)
                                     (ProcessedRule.rule_description n)
                                     (ProcessedRule.rule_text_citation n)
                                     NEW None) in
      append final_rules final_rule
  end.

(** The loops read the elements of [existing_rules] and of [new_rules]
    when they start; the only list written while they run is
    [final_rules], made in between. *)
Definition compare_rule_sets (existing_rules new_rules : ref) : H ref :=
  let! rules := elements existing_rules in
  let! existing_map :=
    for_each rules (∅ : gmap string ref)
      (fun m rule =>
         let! o := attributes rule in
         ret (<[ProcessedRule.rule_text_citation o := rule]> m)) in
  let! final_rules := new_list in
  let! candidates := elements new_rules in
  let! _ := for_each candidates tt
              (compare_rule_sets_body existing_map final_rules) in
  ret final_rules.

End WithEnv.

(** The rules a list of references stands for. *)
Definition values (h : t) (rs : list ref) : list ProcessedRule :=
  omap (fun r => objects h !! r) rs.

End Store.

(** ** The endpoint ([app/schemas/request.py], [app/api/routes.py]) *)

(** The request once validated: [product_type] is one of the four
    literals, [existing_rules] may be absent. *)
Module ExtractionRequest.
Record t := mk {
  state : USState;
  product_type : string;
  existing_rules : option (list ProcessedRule)
}.
End ExtractionRequest.
Abbreviation ExtractionRequest := ExtractionRequest.t.

Module Routes.

(** What the handler gives the framework: the response, sent with status
    200, or an [HTTPException]. *)
Inductive HTTPResult :=
| Ok (response : ExtractionResponse)
| HTTPException (status_code : nat) (detail : string).

Section WithEnv.

Variable env : Env.

(** [extract_rules]: the handler of POST /extract-rules.  Its last
    [except Exception] clause answers 500 when the workflow itself raises,
    which the workflow above never does. *)
Definition extract_rules (request : ExtractionRequest) : M HTTPResult :=
  let existing_rules :=
    match ExtractionRequest.existing_rules request with
    | Some l => if truthy_list l then Some l else None
    | None => None
    end in
  let* response :=
    Workflow.run_extraction_workflow env (ExtractionRequest.state request)
      (ExtractionRequest.product_type request) existing_rules in
  if negb (ExtractionResponse.success response)
  then
    ret (HTTPException 500
           (if truthy_opt (ExtractionResponse.error response)
            then default EmptyString (ExtractionResponse.error response)
            else "Extraction failed"))
  else ret (Ok response).

End WithEnv.
End Routes.

(** ** Vocabulary of the statements *)

Section Vocabulary.

Variable env : Env.

(** What the classifier reports for the pair [(p, n)] when the call is made
    in world [w]: the validated [RuleComparisonResult], or the exception
    that the call, the empty-response test or the validation raises. *)
Definition classifier_report (w : World) (p n : ProcessedRule)
  : Reply RuleComparisonResult :=
  match gemini_generate env w ComparisonSchema
          (GeminiService._build_comparison_prompt p n) with
  | Raised e => Raised e
  | Returned None => Raised "Gemini returned empty response"
  | Returned (Some text) =>
      if truthy_str text then validate_comparison env text
      else Raised "Gemini returned empty response"
  end.

(** The status and reason [compare_rules] derives from a report. *)
Definition verdict_of_report (rep : Reply RuleComparisonResult)
  : ChangeStatus * option string :=
  match rep with
  | Raised e => (UPDATED, Some ("Comparison error: " +:+ e))
  | Returned res =>
      if RuleComparisonResult.are_equivalent res then (UNCHANGED, None)
      else (UPDATED, RuleComparisonResult.change_reason res)
  end.

(** The status and reason given to candidate [n] when its turn comes in
    world [w], and the world its turn leaves. *)
Definition verdict (existing_map : gmap string ProcessedRule)
  (n : ProcessedRule) (w : World) : ChangeStatus * option string :=
  match existing_map !! ProcessedRule.rule_text_citation n with
  | None => (NEW, None)
  | Some p => verdict_of_report (classifier_report w p n)
  end.

Definition world_step (existing_map : gmap string ProcessedRule)
  (n : ProcessedRule) (w : World) : World :=
  match existing_map !! ProcessedRule.rule_text_citation n with
  | None => w
  | Some p => w ++ [(ComparisonSchema, GeminiService._build_comparison_prompt p n)]
  end.

(** The world in which the candidate that follows the prefix [N1] is
    processed by [compare_rule_sets]. *)
Definition world_after (P N1 : list ProcessedRule) (w : World) : World :=
  snd (GeminiService.compare_rule_sets env P N1 w).

(** The outcomes of the per-item extractions of a batch, in input order,
    each made in the world the previous ones leave. *)
Fixpoint attempts (scraped_rules : list Rule) (w : World)
  : list (Reply (list ProcessedRule)) :=
  match scraped_rules with
  | [] => []
  | r :: rs =>
      let (res, w') :=
        GeminiService.extract_rules_from_text env (Rule.rule_text r)
                                              (Rule.rule_text_citation r) w in
      res :: attempts rs w'
  end.

End Vocabulary.

(** The rules an attempt contributes to the batch. *)
Definition successes (a : Reply (list ProcessedRule)) : list ProcessedRule :=
  match a with
  | Raised _ => []
  | Returned l => l
  end.

(** The calls of a log made to the equivalence classifier. *)
Definition classifier_calls (w : list (Schema * string))
  : list (Schema * string) :=
  filter (fun c => fst c = ComparisonSchema) w.

(** [candidate n s r] is the rule [compare_rule_sets] builds for the
    candidate [n] with status [s] and reason [r]. *)
Definition candidate (n : ProcessedRule) (s : ChangeStatus)
  (r : option string) : ProcessedRule :=
  ProcessedRule.mk (ProcessedRule.rule_name n)
                   (ProcessedRule.rule_description n)
                   (ProcessedRule.rule_text_citation n) s r.

Definition has_citation (c : string) (p : ProcessedRule) : Prop :=
  ProcessedRule.rule_text_citation p = c.

#[global] Instance has_citation_dec c p : Decision (has_citation c p).
Proof. unfold has_citation. apply _. Defined.

(** The update of a failed scrape. *)
Definition scrape_failed (e : string) : Update :=
  [W_scraped_rules []; W_source_url EmptyString;
   W_error (Some ("Scraping failed: " +:+ e))].

(** [rs] are references to instances whose values in [objs] are [vs]. *)
Definition stand_for (objs : list ProcessedRule) (rs : list Store.ref)
  (vs : list ProcessedRule) : Prop :=
  Forall2 (fun r v => objs !! r = Some v) rs vs.

(** The map of references [mr] and the map of values [mv] have the same
    keys, and each reference of [mr] is to the value [mv] holds. *)
Definition maps_agree (objs : list ProcessedRule) (mr : gmap string Store.ref)
  (mv : gmap string ProcessedRule) : Prop :=
  forall c, match mr !! c with
            | Some r => exists e, objs !! r = Some e /\ mv !! c = Some e
            | None => mv !! c = None
            end.

(** What the model reports for the extraction of [rule_text] when asked in
    world [w]: the validated [RuleExtractionResult], or the exception. *)
Definition extraction_report (env : Env) (w : World) (rule_text : string)
  : Reply RuleExtractionResult :=
  match gemini_generate env w ExtractionSchema
          (GeminiService._build_extraction_prompt rule_text) with
  | Raised e => Raised e
  | Returned None => Raised "Gemini returned empty response"
  | Returned (Some text) =>
      if truthy_str text then validate_extraction env text
      else Raised "Gemini returned empty response"
  end.

(** The citations of a list of rules. *)
Definition citations (rules : list ProcessedRule) : list string :=
  map ProcessedRule.rule_text_citation rules.

(** The requests to the classifier a list of candidates gives rise to: one
    for each candidate whose citation is a key of the map, in order. *)
Definition classifier_prompts (existing_map : gmap string ProcessedRule)
  (N : list ProcessedRule) : list (Schema * string) :=
  omap (fun n =>
          match existing_map !! ProcessedRule.rule_text_citation n with
          | Some p =>
              Some (ComparisonSchema, GeminiService._build_comparison_prompt p n)
          | None => None
          end) N.

(** The requests a batch extraction makes: one for each scraped rule. *)
Definition extraction_prompts (scraped_rules : list Rule)
  : list (Schema * string) :=
  map (fun r => (ExtractionSchema,
                 GeminiService._build_extraction_prompt (Rule.rule_text r)))
      scraped_rules.

(** ** Test doubles

    An environment whose model answers from a script, one entry per call,
    and whose validators read a toy syntax: ["equivalent"], ["different"]
    (not equivalent, no reason), ["changed: R"] (not equivalent, reason
    [R]); for extraction, any text but ["garbage"] is one rule named by the
    text. *)

Definition toy_validate_comparison (text : string)
  : Reply RuleComparisonResult :=
  if String.eqb text "equivalent"
  then Returned (RuleComparisonResult.mk true None)
  else if String.eqb text "different"
  then Returned (RuleComparisonResult.mk false None)
  else if String.prefix "changed: " text
  then Returned (RuleComparisonResult.mk false
                   (Some (String.substring 9 (String.length text - 9) text)))
  else Raised "invalid JSON".

Definition toy_validate_extraction (text : string)
  : Reply RuleExtractionResult :=
  if String.eqb text "garbage" then Raised "invalid JSON"
  else Returned (RuleExtractionResult.mk [ExtractedRule.mk text text]).

Definition scripted (agent : Reply AgentResult)
  (script : list (Reply (option string))) : Env :=
  {| firecrawl_init := Returned tt;
     gemini_init := Returned tt;
     firecrawl_agent := fun _ _ => agent;
     gemini_generate := fun w _ _ =>
       nth (length w) script (Raised "connection reset");
     validate_extraction := toy_validate_extraction;
     validate_comparison := toy_validate_comparison |}.

Definition thc_10mg : ProcessedRule :=
  ProcessedRule.mk "THC Content Labeling" "THC limited to 10mg per serving"
                   "ARM 42.39.301(1)" UNCHANGED None.

Definition thc_15mg : ProcessedRule :=
  ProcessedRule.mk "THC Content Labeling" "THC limited to 15mg per serving"
                   "ARM 42.39.301(1)" NEW None.

Definition warning_rule : ProcessedRule :=
  ProcessedRule.mk "Warning Statement" "Label carries the state warning"
                   "ARM 42.39.301(2)" NEW None.

Definition thc_12mg : ProcessedRule :=
  ProcessedRule.mk "THC Content Labeling" "THC limited to 12mg per serving"
                   "ARM 42.39.301(1)" UPDATED (Some "limit raised").

Definition raw_rule (number text citation : string) : Rule :=
  Rule.mk number "2023-01-01" text citation.

Definition three_scraped : PipelineState :=
  PipelineState.mk MONTANA "flower" [] "https://rules.mt.gov" 
    [raw_rule "42.39.301" "first text" "ARM 42.39.301(1)";
     raw_rule "42.39.302" "second text" "ARM 42.39.302(1)";
     raw_rule "42.39.303" "third text" "ARM 42.39.303(1)"]
    [] [] None.

Definition second_fails : Env :=
  scripted (Returned ResultOther)
    [Returned (Some "Display THC content");
     Raised "timeout";
     Returned (Some "Use child-resistant packaging")].

Definition scrape_down : Env := scripted (Raised "timeout") [].

(** A record as the agent returns it. *)
Definition scraped_record : RuleData :=
  list_to_map [
    ("rule_number", "42.39.301");
    ("effective_date", "2023-01-01");
    ("rule_text", "All products must display THC content");
    ("rule_text_citation", "ARM 42.39.301(1)")
  ].

(** A store with one prior rule and one candidate, each in its list. *)
Definition two_lists : Store.t :=
  Store.mk [thc_10mg; thc_15mg] [[0]; [1]] [].



(** An environment whose Gemini service cannot be built. *)
Definition gemini_down : Env :=
  {| firecrawl_init := Returned tt;
     gemini_init := Raised "GOOGLE_API_KEY missing";
     firecrawl_agent := fun _ _ =>
       Returned (ResultWithData (Some [scraped_record]));
     gemini_generate := fun _ _ _ => Returned (Some "equivalent");
     validate_extraction := toy_validate_extraction;
     validate_comparison := toy_validate_comparison |}.


(** One record scraped, one rule extracted from it, and a classifier that
    reports a change. *)
Definition one_record_changed : Env :=
  scripted
    (Returned (ResultWithData (Some [scraped_record])))
    [Returned (Some "THC limited to 15mg per serving");
     Returned (Some "changed: THC limit increased from 10mg to 15mg")].

(** * Properties *)

(** ** The monad *)

Lemma for_each_app {A B} (xs ys : list A) (acc : B) (body : B -> A -> M B) w :
  for_each (xs ++ ys) acc body w =
  let (acc', w') := for_each xs acc body w in for_each ys acc' body w'.
Proof.
  revert acc w. induction xs as [|x xs IH]; intros acc w; simpl.
  - reflexivity.
  - unfold bind. destruct (body acc x w) as [acc1 w1]. apply IH.
Qed.

Lemma bind_eq {A B} (c : M A) (k : A -> M B) w :
  bind c k w = k (c w).1 (c w).2.
Proof. unfold bind. by destruct (c w). Qed.

(** ** [compare_rules]: the status and reason follow the report *)

Section Reconciliation.

Variable env : Env.

Lemma compare_rules_spec p n w :
  GeminiService.compare_rules env p n w =
  (verdict_of_report (classifier_report env w p n),
   w ++ [(ComparisonSchema, GeminiService._build_comparison_prompt p n)]).
Proof.
  unfold GeminiService.compare_rules, classifier_report, try_except, bind_try,
    bind, GeminiService.generate_content, GeminiService.response_text,
    returns, raise, ret.
  destruct (gemini_generate env w ComparisonSchema _) as [e|[text|]];
    simpl; try reflexivity.
  destruct (truthy_str text); simpl; try reflexivity.
  destruct (validate_comparison env text) as [e|res]; simpl; try reflexivity.
  destruct (RuleComparisonResult.are_equivalent res); reflexivity.
Qed.

Lemma compare_rule_sets_body_spec existing_map acc n w :
  GeminiService.compare_rule_sets_body env existing_map acc n w =
  (acc ++ [candidate n (verdict env existing_map n w).1 (verdict env existing_map n w).2],
   world_step existing_map n w).
Proof.
  unfold GeminiService.compare_rule_sets_body, verdict, world_step, candidate.
  destruct (existing_map !! ProcessedRule.rule_text_citation n) as [p|].
  - unfold bind. rewrite compare_rules_spec.
    destruct (verdict_of_report _) as [s r]. reflexivity.
  - reflexivity.
Qed.

(** The loop only appends: started from [acc] it returns [acc] followed by
    what it returns when started from the empty list, and the calls it
    makes do not depend on [acc]. *)
Lemma compare_loop_acc existing_map N acc w :
  for_each N acc (GeminiService.compare_rule_sets_body env existing_map) w =
  (acc ++ (for_each N [] (GeminiService.compare_rule_sets_body env existing_map) w).1,
   (for_each N [] (GeminiService.compare_rule_sets_body env existing_map) w).2).
Proof.
  revert acc w. induction N as [|n N IH]; intros acc w; simpl.
  - unfold ret. simpl. by rewrite app_nil_r.
  - unfold bind. rewrite !compare_rule_sets_body_spec.
    rewrite (IH (acc ++ _)), (IH ([] ++ _)). simpl.
    by rewrite <- app_assoc.
Qed.

Lemma compare_rule_sets_cons P n N w :
  GeminiService.compare_rule_sets env P (n :: N) w =
  (candidate n (verdict env (GeminiService.existing_map_of P) n w).1
                (verdict env (GeminiService.existing_map_of P) n w).2
     :: (GeminiService.compare_rule_sets env P N
           (world_step (GeminiService.existing_map_of P) n w)).1,
   (GeminiService.compare_rule_sets env P N
      (world_step (GeminiService.existing_map_of P) n w)).2).
Proof.
  unfold GeminiService.compare_rule_sets. simpl. unfold bind.
  rewrite compare_rule_sets_body_spec, compare_loop_acc. reflexivity.
Qed.

Lemma compare_rule_sets_nil P w :
  GeminiService.compare_rule_sets env P [] w = ([], w).
Proof. reflexivity. Qed.

Lemma compare_rule_sets_app P N1 N2 w :
  GeminiService.compare_rule_sets env P (N1 ++ N2) w =
  ((GeminiService.compare_rule_sets env P N1 w).1
     ++ (GeminiService.compare_rule_sets env P N2 (world_after env P N1 w)).1,
   (GeminiService.compare_rule_sets env P N2 (world_after env P N1 w)).2).
Proof.
  unfold world_after, GeminiService.compare_rule_sets.
  rewrite for_each_app.
  destruct (for_each N1 [] _ w) as [acc1 w1]. simpl.
  apply compare_loop_acc.
Qed.

Lemma compare_rule_sets_length P N w :
  length (GeminiService.compare_rule_sets env P N w).1 = length N.
Proof.
  revert w. induction N as [|n N IH]; intros w.
  - reflexivity.
  - rewrite compare_rule_sets_cons. simpl. by rewrite IH.
Qed.

(** The decision table of the engine: the rule at the position of candidate
    [n] is [n] with the verdict reached in the world its turn starts in. *)
Lemma final_rule_at P N1 n N2 w :
  (GeminiService.compare_rule_sets env P (N1 ++ n :: N2) w).1 !! length N1 =
  Some (candidate n
          (verdict env (GeminiService.existing_map_of P) n
                   (world_after env P N1 w)).1
          (verdict env (GeminiService.existing_map_of P) n
                   (world_after env P N1 w)).2).
Proof.
  rewrite compare_rule_sets_app. simpl.
  rewrite lookup_app_r by (rewrite compare_rule_sets_length; lia).
  rewrite compare_rule_sets_length, Nat.sub_diag.
  rewrite compare_rule_sets_cons. reflexivity.
Qed.

(** C2. For all prior sets [P] and candidate sets [N], the output of
    [compare_rule_sets] has the length of [N], and position by position the
    citation, the name and the description of the output rule are those of
    the candidate: same rules, same order. *)
Theorem compare_rule_sets_keeps_candidates P N w :
  let F := (GeminiService.compare_rule_sets env P N w).1 in
  length F = length N /\
  map ProcessedRule.rule_text_citation F = map ProcessedRule.rule_text_citation N /\
  map ProcessedRule.rule_name F = map ProcessedRule.rule_name N /\
  map ProcessedRule.rule_description F = map ProcessedRule.rule_description N.
Proof.
  simpl. split; [apply compare_rule_sets_length|].
  revert w. induction N as [|n N IH]; intros w.
  - by rewrite compare_rule_sets_nil.
  - rewrite compare_rule_sets_cons. simpl.
    destruct (IH (world_step (GeminiService.existing_map_of P) n w))
      as (-> & -> & ->).
    done.
Qed.

(** C3. For the candidate [n] at any position of [N]: when its citation is
    not a key of the map built from [P] the emitted rule is [n] with status
    NEW and no reason, whatever its description; when it matches prior rule
    [p] and the classifier reports [are_equivalent = true] the emitted rule
    is UNCHANGED with no reason; when the classifier reports
    [are_equivalent = false] with reason [X] it is UPDATED with reason
    [X]. *)
Theorem status_follows_match_and_report P N1 n N2 w :
  let existing_map := GeminiService.existing_map_of P in
  let emitted :=
    (GeminiService.compare_rule_sets env P (N1 ++ n :: N2) w).1 !! length N1 in
  let report p := classifier_report env (world_after env P N1 w) p n in
  (existing_map !! ProcessedRule.rule_text_citation n = None ->
   emitted = Some (candidate n NEW None)) /\
  (forall p res,
     existing_map !! ProcessedRule.rule_text_citation n = Some p ->
     report p = Returned res ->
     RuleComparisonResult.are_equivalent res = true ->
     emitted = Some (candidate n UNCHANGED None)) /\
  (forall p res X,
     existing_map !! ProcessedRule.rule_text_citation n = Some p ->
     report p = Returned res ->
     RuleComparisonResult.are_equivalent res = false ->
     RuleComparisonResult.change_reason res = Some X ->
     emitted = Some (candidate n UPDATED (Some X))).
Proof.
  simpl. rewrite final_rule_at. unfold verdict.
  split; [|split].
  - intros ->. reflexivity.
  - intros p res -> -> Heq. simpl. by rewrite Heq.
  - intros p res X -> -> Heq HX. simpl. by rewrite Heq, HX.
Qed.

(** C5. For a matched pair whose classifier call raises (the request
    fails, the response is empty, or it does not validate), the comparison
    still returns: the rule is emitted at its position with status UPDATED
    and a reason that describes the failure. *)
Theorem classifier_failure_gives_updated P N1 n N2 w p e :
  GeminiService.existing_map_of P !! ProcessedRule.rule_text_citation n = Some p ->
  classifier_report env (world_after env P N1 w) p n = Raised e ->
  (GeminiService.compare_rule_sets env P (N1 ++ n :: N2) w).1 !! length N1 =
    Some (candidate n UPDATED (Some ("Comparison error: " +:+ e))) /\
  length (GeminiService.compare_rule_sets env P (N1 ++ n :: N2) w).1 =
    length (N1 ++ n :: N2).
Proof.
  intros Hp He. split; [|apply compare_rule_sets_length].
  rewrite final_rule_at. unfold verdict. by rewrite Hp, He.
Qed.

(** The dict comprehension binds a citation to the last rule of [P] that
    carries it. *)
Lemma existing_map_of_snoc P p :
  GeminiService.existing_map_of (P ++ [p]) =
  <[ProcessedRule.rule_text_citation p := p]> (GeminiService.existing_map_of P).
Proof. unfold GeminiService.existing_map_of. by rewrite foldl_snoc. Qed.

Lemma existing_map_of_lookup P c :
  GeminiService.existing_map_of P !! c = last (filter (has_citation c) P).
Proof.
  induction P as [|p P IH] using rev_ind.
  - reflexivity.
  - rewrite existing_map_of_snoc, filter_app, lookup_insert.
    rewrite filter_cons, filter_nil. unfold has_citation at 2.
    destruct (decide (ProcessedRule.rule_text_citation p = c)) as [Hc|Hc].
    + by rewrite last_snoc.
    + by rewrite app_nil_r.
Qed.

(** C8. When several rules of [P] carry the citation [c], the map used for
    matching binds [c] to the last of them in the order of [P]; a candidate
    with citation [c] is therefore sent to the classifier together with
    that last rule, and its verdict is the one reached against it. *)
Theorem duplicate_citation_last_wins P c p N1 n w :
  last (filter (has_citation c) P) = Some p ->
  ProcessedRule.rule_text_citation n = c ->
  GeminiService.existing_map_of P !! c = Some p /\
  world_after env P (N1 ++ [n]) w =
    world_after env P N1 w
      ++ [(ComparisonSchema, GeminiService._build_comparison_prompt p n)] /\
  (GeminiService.compare_rule_sets env P (N1 ++ [n]) w).1 !! length N1 =
    Some (candidate n
            (verdict_of_report
               (classifier_report env (world_after env P N1 w) p n)).1
            (verdict_of_report
               (classifier_report env (world_after env P N1 w) p n)).2).
Proof.
  intros Hlast Hc.
  assert (Hp : GeminiService.existing_map_of P
                 !! ProcessedRule.rule_text_citation n = Some p)
    by (rewrite Hc, existing_map_of_lookup; exact Hlast).
  split; [by rewrite <- Hc|]. split.
  - unfold world_after at 1. rewrite compare_rule_sets_app. simpl.
    rewrite compare_rule_sets_cons, compare_rule_sets_nil. simpl.
    unfold world_step. by rewrite Hp.
  - rewrite final_rule_at. unfold verdict. by rewrite Hp.
Qed.

(** C7 (the code departs from the claim). A matched candidate whose
    classifier report is [are_equivalent = false] with no [change_reason]
    (the schema allows it) is emitted with status UPDATED and a null
    reason. *)
Theorem updated_without_reason P N1 n N2 w p res :
  GeminiService.existing_map_of P !! ProcessedRule.rule_text_citation n = Some p ->
  classifier_report env (world_after env P N1 w) p n = Returned res ->
  RuleComparisonResult.are_equivalent res = false ->
  RuleComparisonResult.change_reason res = None ->
  (GeminiService.compare_rule_sets env P (N1 ++ n :: N2) w).1 !! length N1 =
    Some (candidate n UPDATED None).
Proof.
  intros Hp Hrep Heq Hnone.
  rewrite final_rule_at. unfold verdict. rewrite Hp, Hrep. simpl.
  by rewrite Heq, Hnone.
Qed.

(** A reason is only ever attached to an UPDATED rule. *)
Lemma reason_only_when_updated P N w :
  Forall (fun r => ProcessedRule.change_reason r <> None ->
                   ProcessedRule.status r = UPDATED)
         (GeminiService.compare_rule_sets env P N w).1.
Proof.
  revert w. induction N as [|n N IH]; intros w.
  - constructor.
  - rewrite compare_rule_sets_cons. constructor; [|apply IH].
    simpl. unfold verdict.
    destruct (_ !! _) as [p|]; [|done].
    destruct (classifier_report _ _ _ _) as [e|res]; simpl; [done|].
    by destruct (RuleComparisonResult.are_equivalent res).
Qed.

End Reconciliation.

(** ** Batch extraction *)

Section Extraction.

Variable env : Env.

Lemma extract_rules_from_text_world rule_text citation w :
  (GeminiService.extract_rules_from_text env rule_text citation w).2 =
  w ++ [(ExtractionSchema, GeminiService._build_extraction_prompt rule_text)].
Proof.
  unfold GeminiService.extract_rules_from_text, try_reraise, bind_try, bind,
    GeminiService.generate_content, GeminiService.response_text,
    returns, raise, ret.
  destruct (gemini_generate env w ExtractionSchema _) as [e|[text|]];
    simpl; try reflexivity.
  destruct (truthy_str text); simpl; try reflexivity.
  destruct (validate_extraction env text); reflexivity.
Qed.

(** One turn of the batch loop: the accumulator grows by what the attempt
    contributes, nothing when it raised. *)
Lemma batch_loop_spec rs acc w :
  (for_each rs acc
     (fun all_processed_rules scraped_rule =>
        try_except
          (let? extracted_rules :=
             GeminiService.extract_rules_from_text env
               (Rule.rule_text scraped_rule)
               (Rule.rule_text_citation scraped_rule) in
           returns (all_processed_rules ++ extracted_rules))
          (fun _ => ret all_processed_rules)) w).1 =
  acc ++ concat (map successes (attempts env rs w)).
Proof.
  revert acc w. induction rs as [|r rs IH]; intros acc w; simpl.
  - by rewrite app_nil_r.
  - unfold bind at 1. unfold try_except at 1, bind_try, bind.
    destruct (GeminiService.extract_rules_from_text env _ _ w) as [[e|l] w1];
      simpl; rewrite IH.
    + reflexivity.
    + by rewrite app_assoc.
Qed.

Lemma attempts_length rs w : length (attempts env rs w) = length rs.
Proof.
  revert w. induction rs as [|r rs IH]; intros w; simpl; [done|].
  destruct (GeminiService.extract_rules_from_text env _ _ w). simpl.
  by rewrite IH.
Qed.

Lemma batch_classifier_calls rs w :
  classifier_calls (GeminiService.extract_rules_from_scraped_data env rs w).2
  = classifier_calls w.
Proof.
  unfold GeminiService.extract_rules_from_scraped_data.
  generalize (@nil ProcessedRule) as acc.
  revert w. induction rs as [|r rs IH]; intros w acc; simpl; [done|].
  unfold bind at 1. unfold try_except at 1, bind_try, bind.
  pose proof (extract_rules_from_text_world (Rule.rule_text r)
                (Rule.rule_text_citation r) w) as Hw.
  destruct (GeminiService.extract_rules_from_text env _ _ w) as [[e|l] w1];
    simpl in *; rewrite IH; subst w1; unfold classifier_calls;
    rewrite filter_app; simpl; by rewrite app_nil_r.
Qed.

(** C6. A failed per-item extraction does not abort the batch: every raw
    rule is attempted, the output is the concatenation in input order of
    what the successful attempts return, a failed attempt contributing
    nothing; and the extract stage, once its service is available, records
    these rules with no error. *)
Theorem batch_extraction_skips_failures (s : PipelineState) w :
  gemini_init env = Returned tt ->
  let scraped_rules := PipelineState.scraped_rules s in
  let extracted := concat (map successes (attempts env scraped_rules w)) in
  length (attempts env scraped_rules w) = length scraped_rules /\
  (GeminiService.extract_rules_from_scraped_data env scraped_rules w).1
    = extracted /\
  (Nodes.extract_rules_node env s w).1
    = [W_processed_rules extracted; W_error None].
Proof.
  intros Hinit. simpl. split; [apply attempts_length|]. split.
  - unfold GeminiService.extract_rules_from_scraped_data.
    by rewrite batch_loop_spec.
  - unfold Nodes.extract_rules_node, try_except, bind_try, bind,
      Nodes.get_gemini_service, returns, ret.
    destruct (PipelineState.scraped_rules s) as [|r rs] eqn:Hrs; simpl.
    + reflexivity.
    + rewrite Hinit.
      pose proof (batch_loop_spec (r :: rs) [] w) as Hb. simpl in Hb.
      unfold GeminiService.extract_rules_from_scraped_data. simpl.
      destruct (bind _ _ w) as [out w'] eqn:Hrun. simpl in *.
      by rewrite Hb.
Qed.

End Extraction.

(** ** The pipeline *)

Section Controller.

Variable env : Env.

Lemma scrape_node_spec s w :
  Nodes.scrape_node env s w =
  (match firecrawl_init env with
   | Raised e => scrape_failed e
   | Returned _ =>
       match FirecrawlService.extract_rules env (PipelineState.state s)
               (PipelineState.product_type s) with
       | Raised e => scrape_failed e
       | Returned (scraped_rules, source_url) =>
           [W_scraped_rules scraped_rules; W_source_url source_url;
            W_error None]
       end
   end, w).
Proof.
  unfold Nodes.scrape_node, try_except, bind_try, bind,
    Nodes.get_firecrawl_service, returns, ret.
  destruct (firecrawl_init env) as [e|[]]; [reflexivity|].
  destruct (FirecrawlService.extract_rules env _ _) as [e|[rules url]];
    reflexivity.
Qed.

(** With nothing scraped, the extract stage writes an empty rule list and
    [error = None], whatever the state held. *)
Lemma extract_rules_node_nothing_scraped s w :
  PipelineState.scraped_rules s = [] ->
  Nodes.extract_rules_node env s w = ([W_processed_rules []; W_error None], w).
Proof.
  intros Hs. unfold Nodes.extract_rules_node, try_except. by rewrite Hs.
Qed.

(** The format stage ends every run, and each of its branches writes
    [error = None]. *)
Lemma format_response_node_spec s w :
  Nodes.format_response_node s w =
  (if negb (truthy_list (PipelineState.existing_rules s))
      && negb (truthy_list (PipelineState.final_rules s))
      && truthy_list (PipelineState.processed_rules s)
   then [W_final_rules (all_new (PipelineState.processed_rules s)); W_error None]
   else [W_error None], w).
Proof.
  unfold Nodes.format_response_node, try_except, bind, returns, ret.
  by destruct (_ && _).
Qed.

Lemma format_clears_error s w :
  PipelineState.error (Workflow.run_node Nodes.format_response_node s w).1 = None.
Proof.
  unfold Workflow.run_node, bind. rewrite format_response_node_spec.
  by destruct (_ && _).
Qed.

Lemma ainvoke_error_none s w :
  PipelineState.error (Workflow.ainvoke env s w).1 = None.
Proof.
  unfold Workflow.ainvoke, bind.
  destruct (Workflow.run_node (Nodes.scrape_node env) s w) as [s1 w1].
  destruct (Workflow.run_node (Nodes.extract_rules_node env) s1 w1) as [s2 w2].
  destruct (String.eqb _ _).
  - destruct (Workflow.run_node (Nodes.compare_node env) s2 w2) as [s3 w3].
    apply format_clears_error.
  - apply format_clears_error.
Qed.

(** No run of the workflow ends in the failure branch of
    [run_extraction_workflow]. *)
Lemma workflow_always_reports_success st pt ex w :
  ExtractionResponse.success (Workflow.run_extraction_workflow env st pt ex w).1
    = true /\
  ExtractionResponse.error (Workflow.run_extraction_workflow env st pt ex w).1
    = None.
Proof.
  unfold Workflow.run_extraction_workflow, bind.
  pose proof (ainvoke_error_none (create_initial_state st pt ex) w) as He.
  destruct (Workflow.ainvoke env _ w) as [fs w']. simpl in *.
  unfold Workflow.response_of. rewrite He. simpl. done.
Qed.

(** C10. The response built by [run_extraction_workflow] has
    [total_rules_extracted] equal to the length of [rules]: from any final
    state the failure branch gives 0 and the empty list and the success
    branch gives the length of the very list it returns; so it is for the
    response of every run. *)
Theorem total_rules_is_length st pt :
  (forall final_state,
     let r := Workflow.response_of st pt final_state in
     ExtractionResponse.total_rules_extracted r
       = length (ExtractionResponse.rules r) /\
     (if ExtractionResponse.success r then True
      else ExtractionResponse.rules r = []
           /\ ExtractionResponse.total_rules_extracted r = 0)) /\
  (forall ex w,
     let r := (Workflow.run_extraction_workflow env st pt ex w).1 in
     ExtractionResponse.total_rules_extracted r
       = length (ExtractionResponse.rules r)).
Proof.
  assert (H : forall final_state,
     let r := Workflow.response_of st pt final_state in
     ExtractionResponse.total_rules_extracted r
       = length (ExtractionResponse.rules r) /\
     (if ExtractionResponse.success r then True
      else ExtractionResponse.rules r = []
           /\ ExtractionResponse.total_rules_extracted r = 0)).
  { intros fs. unfold Workflow.response_of.
    destruct (truthy_opt (PipelineState.error fs)); simpl; done. }
  split; [exact H|].
  intros ex w. unfold Workflow.run_extraction_workflow, bind.
  destruct (Workflow.ainvoke env _ w) as [fs w']. simpl.
  apply (H fs).
Qed.

Lemma run_node_eq node s w :
  Workflow.run_node node s w = (apply_update s (node s w).1, (node s w).2).
Proof. unfold Workflow.run_node. by rewrite bind_eq. Qed.

Lemma ainvoke_eq s w :
  Workflow.ainvoke env s w =
  let r1 := Workflow.run_node (Nodes.scrape_node env) s w in
  let r2 := Workflow.run_node (Nodes.extract_rules_node env) r1.1 r1.2 in
  if String.eqb (Nodes.should_compare r2.1) "compare"
  then
    let r3 := Workflow.run_node (Nodes.compare_node env) r2.1 r2.2 in
    Workflow.run_node Nodes.format_response_node r3.1 r3.2
  else Workflow.run_node Nodes.format_response_node r2.1 r2.2.
Proof.
  unfold Workflow.ainvoke. rewrite !bind_eq. simpl.
  destruct (String.eqb _ _); [by rewrite bind_eq|done].
Qed.

Lemma run_extraction_workflow_eq st pt ex w :
  (Workflow.run_extraction_workflow env st pt ex w).1 =
  Workflow.response_of st pt
    (Workflow.ainvoke env (create_initial_state st pt ex) w).1.
Proof. unfold Workflow.run_extraction_workflow. by rewrite bind_eq. Qed.

(** An error in the state after the scrape stage was written by the
    [except] branch of [scrape_node]. *)
Lemma scrape_error_shape s w err :
  PipelineState.error (Workflow.run_node (Nodes.scrape_node env) s w).1
    = Some err ->
  exists e, Workflow.run_node (Nodes.scrape_node env) s w
            = (apply_update s (scrape_failed e), w).
Proof.
  rewrite run_node_eq, scrape_node_spec. simpl.
  destruct (firecrawl_init env) as [e|[]]; [by exists e|].
  destruct (FirecrawlService.extract_rules env _ _) as [e|[rules url]];
    [by exists e|].
  simpl. discriminate.
Qed.

(** From a state with no rules and no error, whichever way the run goes
    on, the response is a success with no rules. *)
Lemma response_without_rules st pt s2 w :
  PipelineState.source_url s2 = EmptyString ->
  PipelineState.processed_rules s2 = [] ->
  PipelineState.final_rules s2 = [] ->
  PipelineState.error s2 = None ->
  Workflow.response_of st pt
    (if String.eqb (Nodes.should_compare s2) "compare"
     then
       let r3 := Workflow.run_node (Nodes.compare_node env) s2 w in
       Workflow.run_node Nodes.format_response_node r3.1 r3.2
     else Workflow.run_node Nodes.format_response_node s2 w).1
  = ExtractionResponse.mk true (USState_value st) pt EmptyString 0 [] None.
Proof.
  destruct s2 as [st' pt' ex url scraped processed final err]. simpl.
  intros -> -> -> ->.
  unfold Nodes.should_compare. simpl.
  destruct ex as [|p ex]; simpl.
  - reflexivity.
  - unfold Workflow.run_node, bind, Nodes.compare_node, try_except, bind_try,
      bind, Nodes.get_gemini_service, returns, ret. simpl.
    destruct (gemini_init env) as [e|[]]; reflexivity.
Qed.

(** C1 (the code departs from the claim). When the scrape node records an
    error in the state, the extract node, finding nothing scraped, writes
    [error = None] over it; the run then ends as a success with no rules:
    the failure is not reported. *)
Theorem scrape_error_overwritten st pt ex w err :
  let s0 := create_initial_state st pt ex in
  let s1 := (Workflow.run_node (Nodes.scrape_node env) s0 w).1 in
  let s2 := (Workflow.run_node (Nodes.extract_rules_node env) s1 w).1 in
  PipelineState.error s1 = Some err ->
  PipelineState.error s2 = None /\
  (Workflow.run_extraction_workflow env st pt ex w).1
    = ExtractionResponse.mk true (USState_value st) pt EmptyString 0 [] None.
Proof.
  simpl. intros Herr.
  destruct (scrape_error_shape _ _ _ Herr) as [e He].
  rewrite run_extraction_workflow_eq, ainvoke_eq, He. cbn zeta. cbn [fst snd].
  set (s1 := apply_update (create_initial_state st pt ex) (scrape_failed e)).
  rewrite (run_node_eq _ s1 w).
  rewrite (extract_rules_node_nothing_scraped s1 w) by reflexivity.
  cbn [fst snd].
  split; [reflexivity|].
  apply response_without_rules; reflexivity.
Qed.

(** *** The empty prior set *)

Lemma compare_rule_sets_empty_prior N w :
  GeminiService.compare_rule_sets env [] N w = (all_new N, w).
Proof.
  revert w. induction N as [|n N IH]; intros w.
  - reflexivity.
  - rewrite compare_rule_sets_cons. unfold verdict, world_step.
    change (GeminiService.existing_map_of []) with (∅ : gmap string ProcessedRule).
    rewrite lookup_empty, IH. reflexivity.
Qed.

Lemma all_new_status N :
  Forall (fun r => ProcessedRule.status r = NEW
                   /\ ProcessedRule.change_reason r = None) (all_new N).
Proof. unfold all_new. induction N; constructor; auto. Qed.

Lemma scrape_node_shape s w :
  exists l u e,
    Nodes.scrape_node env s w
    = ([W_scraped_rules l; W_source_url u; W_error e], w).
Proof.
  rewrite scrape_node_spec. unfold scrape_failed.
  destruct (firecrawl_init env) as [e|[]]; [by eexists _, _, _|].
  destruct (FirecrawlService.extract_rules env _ _) as [e|[rules url]];
    by eexists _, _, _.
Qed.

Lemma extract_rules_node_spec s w :
  Nodes.extract_rules_node env s w =
  match PipelineState.scraped_rules s with
  | [] => ([W_processed_rules []; W_error None], w)
  | _ :: _ =>
      match gemini_init env with
      | Raised e =>
          ([W_processed_rules [];
            W_error (Some ("Rule extraction failed: " +:+ e))], w)
      | Returned _ =>
          let r := GeminiService.extract_rules_from_scraped_data env
                     (PipelineState.scraped_rules s) w in
          ([W_processed_rules r.1; W_error None], r.2)
      end
  end.
Proof.
  unfold Nodes.extract_rules_node, try_except, bind_try, bind,
    Nodes.get_gemini_service, returns, ret.
  destruct (PipelineState.scraped_rules s) as [|r rs]; simpl; [done|].
  destruct (gemini_init env) as [e|[]]; [done|].
  by destruct (GeminiService.extract_rules_from_scraped_data env (r :: rs) w).
Qed.

Lemma extract_rules_node_shape s w :
  exists l e,
    (Nodes.extract_rules_node env s w).1 = [W_processed_rules l; W_error e]
    /\ classifier_calls (Nodes.extract_rules_node env s w).2
       = classifier_calls w.
Proof.
  rewrite extract_rules_node_spec.
  destruct (PipelineState.scraped_rules s) as [|r rs]; [by eexists _, _|].
  destruct (gemini_init env) as [e|[]]; [by eexists _, _|].
  eexists _, _. split; [reflexivity|]. apply batch_classifier_calls.
Qed.

(** With no prior rules, a run ends with every extracted rule rebuilt as
    NEW, and asks the classifier nothing. *)
Lemma run_without_prior st pt ex w :
  ex = None \/ ex = Some [] ->
  Forall (fun r => ProcessedRule.status r = NEW
                   /\ ProcessedRule.change_reason r = None)
    (ExtractionResponse.rules
       (Workflow.run_extraction_workflow env st pt ex w).1) /\
  classifier_calls (Workflow.run_extraction_workflow env st pt ex w).2
    = classifier_calls w.
Proof.
  intros Hex.
  assert (Hs0 : create_initial_state st pt ex
                = PipelineState.mk st pt [] EmptyString [] [] [] None)
    by (destruct Hex as [-> | ->]; reflexivity).
  unfold Workflow.run_extraction_workflow. rewrite bind_eq, ainvoke_eq, Hs0.
  cbn zeta. rewrite (run_node_eq (Nodes.scrape_node env)).
  destruct (scrape_node_shape (PipelineState.mk st pt [] EmptyString [] [] [] None) w)
    as (l & u & e & ->). cbn [fst snd]. simpl apply_update.
  set (s1 := PipelineState.mk _ _ _ _ _ _ _ _).
  rewrite (run_node_eq (Nodes.extract_rules_node env)).
  destruct (extract_rules_node_shape s1 w) as (N & e' & -> & Hw).
  set (w2 := (Nodes.extract_rules_node env s1 w).2) in *.
  cbn [fst snd]. simpl apply_update.
  unfold Nodes.should_compare. simpl PipelineState.existing_rules.
  simpl truthy_list. simpl andb.
  replace (String.eqb (if truthy_opt _ then "format" else "format") "compare")
    with false by (by destruct (truthy_opt _)).
  rewrite run_node_eq, format_response_node_spec. cbn [fst snd].
  split; [|exact Hw].
  destruct N as [|n N]; simpl.
  - constructor.
  - apply (all_new_status (n :: N)).
Qed.

(** C4. With an empty prior set the routing sends the run to the format
    stage and not to the comparison; [compare_node] itself returns before
    any call; the match loop, were it run, makes no call either; in each
    case every candidate is emitted as NEW with no reason.  So a run with
    no prior rules, or an empty list of them, answers with NEW rules only
    and leaves the classifier calls of the log as they were. *)
Theorem empty_prior_all_new st pt url scraped N final err w :
  let s := PipelineState.mk st pt [] url scraped N final err in
  Nodes.should_compare s = "format" /\
  Nodes.compare_node env s w = ([W_final_rules (all_new N); W_error None], w) /\
  GeminiService.compare_rule_sets env [] N w = (all_new N, w) /\
  Forall (fun r => ProcessedRule.status r = NEW
                   /\ ProcessedRule.change_reason r = None) (all_new N) /\
  Forall (fun ex =>
            Forall (fun r => ProcessedRule.status r = NEW
                             /\ ProcessedRule.change_reason r = None)
              (ExtractionResponse.rules
                 (Workflow.run_extraction_workflow env st pt ex w).1) /\
            classifier_calls (Workflow.run_extraction_workflow env st pt ex w).2
              = classifier_calls w)
         [None; Some []].
Proof.
  simpl. split; [|split; [|split; [|split]]].
  - unfold Nodes.should_compare. simpl. by destruct (truthy_opt err).
  - reflexivity.
  - apply compare_rule_sets_empty_prior.
  - apply all_new_status.
  - repeat constructor; apply run_without_prior; auto.
Qed.

End Controller.

(** ** The store: what [compare_rule_sets] writes *)

Section StoreProperties.

Variable env : Env.

Lemma stand_for_values h rs :
  Forall (fun r => r < length (Store.objects h)) rs ->
  stand_for (Store.objects h) rs (Store.values h rs).
Proof.
  unfold stand_for, Store.values.
  induction 1 as [|r rs Hr _ IH]; [constructor|].
  destruct (lookup_lt_is_Some_2 _ _ Hr) as [v Hv].
  cbn [omap list_omap]. rewrite Hv. by constructor.
Qed.

Lemma values_stand_for h rs vs :
  stand_for (Store.objects h) rs vs -> Store.values h rs = vs.
Proof.
  unfold stand_for, Store.values.
  induction 1 as [|r v rs vs Hr _ IH]; [done|].
  cbn [omap list_omap]. by rewrite Hr, IH.
Qed.

Lemma values_prefix objs more calls ls ls' calls' rs :
  Forall (fun r => r < length objs) rs ->
  Store.values (Store.mk (objs ++ more) ls' calls') rs
  = Store.values (Store.mk objs ls calls) rs.
Proof.
  unfold Store.values. simpl.
  induction 1 as [|r rs Hr _ IH]; [done|].
  cbn [omap list_omap]. by rewrite lookup_app_l, IH.
Qed.

Lemma build_map_spec h rs vs mr mv :
  stand_for (Store.objects h) rs vs ->
  maps_agree (Store.objects h) mr mv ->
  exists mr',
    Store.for_each rs mr
      (fun m rule =>
         Store.bind (Store.attributes rule)
           (fun o => Store.ret (<[ProcessedRule.rule_text_citation o := rule]> m)))
      h = Some (mr', h)
    /\ maps_agree (Store.objects h) mr'
         (foldl (fun m rule => <[ProcessedRule.rule_text_citation rule := rule]> m)
                mv vs).
Proof.
  intros Hrs. revert mr mv.
  induction Hrs as [|r v rs vs Hr _ IH]; intros mr mv Hm; simpl.
  - by exists mr.
  - unfold Store.bind at 1. unfold Store.bind at 1, Store.attributes.
    rewrite Hr. simpl.
    apply IH. intros c.
    destruct (decide (ProcessedRule.rule_text_citation v = c)) as [->|Hc].
    + rewrite !lookup_insert_eq. by exists v.
    + rewrite !lookup_insert_ne by done. apply Hm.
Qed.

Lemma seq_snoc (start len : nat) :
  seq start len ++ [start + len] = seq start (S len).
Proof. by rewrite seq_S. Qed.

(** The loop over the candidates, started with [acc] already emitted: it
    adds instances after those of the store and writes into the one list
    it was given, the last one; the values it adds and the calls it makes
    are those of the loop over values. *)
Lemma compare_loop_store objs0 ls0 mr mv ns vs acc w :
  stand_for objs0 ns vs ->
  maps_agree objs0 mr mv ->
  Store.for_each ns tt (Store.compare_rule_sets_body env mr (length ls0))
    (Store.mk (objs0 ++ acc) (ls0 ++ [seq (length objs0) (length acc)]) w)
  = let r := for_each vs acc (GeminiService.compare_rule_sets_body env mv) w in
    Some (tt, Store.mk (objs0 ++ r.1)
                       (ls0 ++ [seq (length objs0) (length r.1)]) r.2).
Proof.
  intros Hns Hm. revert acc w.
  induction Hns as [|r v ns vs Hr _ IH]; intros acc w; [reflexivity|].
  cbn [Store.for_each for_each]. cbn zeta.
  rewrite bind_eq, compare_rule_sets_body_spec. cbn [fst snd].
  unfold Store.bind at 1.
  assert (Hstep :
    Store.compare_rule_sets_body env mr (length ls0) () r
      (Store.mk (objs0 ++ acc) (ls0 ++ [seq (length objs0) (length acc)]) w)
    = Some ((), Store.mk
         (objs0 ++ (acc ++ [candidate v (verdict env mv v w).1 (verdict env mv v w).2]))
         (ls0 ++ [seq (length objs0)
                    (length (acc ++ [candidate v (verdict env mv v w).1
                                       (verdict env mv v w).2]))])
         (world_step mv v w))).
  { assert (Hread : forall ls w',
      Store.attributes r (Store.mk (objs0 ++ acc) ls w')
      = Some (v, Store.mk (objs0 ++ acc) ls w')).
    { intros ls w'. unfold Store.attributes. simpl.
      by rewrite (lookup_app_l_Some _ _ _ _ Hr). }
    assert (Hemit : forall s reason w',
      Store.bind
        (Store.new_object (ProcessedRule.mk (ProcessedRule.rule_name v)
           (ProcessedRule.rule_description v)
           (ProcessedRule.rule_text_citation v) s reason))
        (fun final_rule => Store.append (length ls0) final_rule)
        (Store.mk (objs0 ++ acc) (ls0 ++ [seq (length objs0) (length acc)]) w')
      = Some ((), Store.mk (objs0 ++ (acc ++ [candidate v s reason]))
                    (ls0 ++ [seq (length objs0) (length (acc ++ [candidate v s reason]))])
                    w')).
    { intros s reason w'.
      unfold Store.bind, Store.new_object, Store.append. simpl.
      rewrite list_lookup_middle by done.
      rewrite insert_app_r_alt, Nat.sub_diag by done. simpl.
      rewrite !length_app. simpl. rewrite Nat.add_1_r, <- seq_snoc.
      by rewrite <- app_assoc. }
    unfold Store.compare_rule_sets_body, verdict, world_step.
    unfold Store.bind at 1. rewrite Hread.
    specialize (Hm (ProcessedRule.rule_text_citation v)).
    destruct (mr !! ProcessedRule.rule_text_citation v) as [re|].
    - destruct Hm as (e & He & ->).
      unfold Store.bind at 1. unfold Store.compare_rules.
      unfold Store.bind at 1. unfold Store.attributes at 1. simpl.
      rewrite (lookup_app_l_Some _ _ _ _ He).
      unfold Store.bind at 1. rewrite Hread.
      unfold Store.await. simpl. rewrite compare_rules_spec.
      destruct (verdict_of_report _) as [s reason]. simpl.
      unfold Store.bind at 1. rewrite Hread. apply Hemit.
    - rewrite Hm. apply Hemit. }
  rewrite Hstep. apply IH.
Qed.

Lemma values_of_new pre out ls w :
  Store.values (Store.mk (pre ++ out) ls w) (seq (length pre) (length out))
  = out.
Proof.
  unfold Store.values. simpl. revert pre.
  induction out as [|x out IH]; intros pre; [done|].
  cbn [length seq omap list_omap].
  rewrite list_lookup_middle by done.
  rewrite (cons_middle x pre out), app_assoc.
  specialize (IH (pre ++ [x])).
  rewrite length_app, Nat.add_1_r in IH. by rewrite IH.
Qed.

(** C9. Given a store in which [P] and [N] are lists of references to
    instances (shared or not), [compare_rule_sets] returns, and in the
    store it leaves every instance and every list that existed is as it
    was, the prior list [P] and its rules included; the list returned is a
    new one and holds new instances only; these stand for the rules the
    function on values returns, with the same calls made. *)
Theorem compare_rule_sets_frame h P N ps ns :
  Store.lists h !! P = Some ps ->
  Store.lists h !! N = Some ns ->
  Forall (fun r => r < length (Store.objects h)) ps ->
  Forall (fun r => r < length (Store.objects h)) ns ->
  exists F h' fs,
    Store.compare_rule_sets env P N h = Some (F, h') /\
    Store.objects h `prefix_of` Store.objects h' /\
    Store.lists h `prefix_of` Store.lists h' /\
    Store.lists h' !! P = Some ps /\
    Store.values h' ps = Store.values h ps /\
    length (Store.lists h) <= F /\
    Store.lists h' !! F = Some fs /\
    Forall (fun r => length (Store.objects h) <= r) fs /\
    (Store.values h' fs, Store.calls h')
      = GeminiService.compare_rule_sets env (Store.values h ps)
          (Store.values h ns) (Store.calls h).
Proof.
  intros HP HN Hps Hns. destruct h as [objs ls w]. simpl in *.
  pose proof (stand_for_values (Store.mk objs ls w) ps Hps) as Sps.
  pose proof (stand_for_values (Store.mk objs ls w) ns Hns) as Sns.
  set (vps := Store.values (Store.mk objs ls w) ps) in *.
  set (vns := Store.values (Store.mk objs ls w) ns) in *.
  destruct (build_map_spec (Store.mk objs ls w) ps vps ∅ ∅ Sps) as (mr & Hbuild & Hagree).
  { intros c. by rewrite !lookup_empty. }
  fold (GeminiService.existing_map_of vps) in Hagree.
  pose proof (compare_loop_store objs ls mr _ ns vns [] w Sns Hagree) as Hloop.
  rewrite app_nil_r in Hloop. simpl in Hloop.
  fold (GeminiService.compare_rule_sets env vps vns w) in Hloop.
  destruct (GeminiService.compare_rule_sets env vps vns w) as [out w'] eqn:Hout.
  simpl in Hloop.
  exists (length ls),
         (Store.mk (objs ++ out) (ls ++ [seq (length objs) (length out)]) w'),
         (seq (length objs) (length out)).
  simpl. repeat split.
  - unfold Store.compare_rule_sets.
    unfold Store.bind at 1. unfold Store.elements at 1. simpl. rewrite HP.
    unfold Store.bind at 1. rewrite Hbuild.
    unfold Store.bind at 1. unfold Store.new_list. simpl.
    unfold Store.bind at 1. unfold Store.elements. simpl.
    rewrite (lookup_app_l_Some _ _ _ _ HN).
    unfold Store.bind. by rewrite Hloop.
  - by apply prefix_app_r.
  - by apply prefix_app_r.
  - by apply lookup_app_l_Some.
  - by apply values_prefix.
  - done.
  - by apply list_lookup_middle.
  - apply Forall_seq. intros; lia.
  - by rewrite values_of_new.
Qed.

End StoreProperties.

(** * The properties on concrete inputs *)

(** ** The engine on the test doubles *)

Lemma status_follows_match_and_report_witness :
  (GeminiService.compare_rule_sets (scripted (Returned ResultOther) [])
     [thc_10mg] [warning_rule; thc_15mg] []).1 !! 0
    = Some (candidate warning_rule NEW None) /\
  (GeminiService.compare_rule_sets
     (scripted (Returned ResultOther) [Returned (Some "equivalent")])
     [thc_10mg] [thc_15mg] []).1 !! 0
    = Some (candidate thc_15mg UNCHANGED None) /\
  (GeminiService.compare_rule_sets
     (scripted (Returned ResultOther)
        [Returned (Some "changed: THC limit increased from 10mg to 15mg")])
     [thc_10mg] [thc_15mg] []).1 !! 0
    = Some (candidate thc_15mg UPDATED
              (Some "THC limit increased from 10mg to 15mg")).
Proof.
  split; [|split].
  - apply (proj1 (status_follows_match_and_report
                    (scripted (Returned ResultOther) [])
                    [thc_10mg] [] warning_rule [thc_15mg] [])).
    reflexivity.
  - apply (proj1 (proj2 (status_follows_match_and_report
                    (scripted (Returned ResultOther) [Returned (Some "equivalent")])
                    [thc_10mg] [] thc_15mg [] []))
             thc_10mg (RuleComparisonResult.mk true None));
      reflexivity.
  - apply (proj2 (proj2 (status_follows_match_and_report
                    (scripted (Returned ResultOther)
                       [Returned (Some "changed: THC limit increased from 10mg to 15mg")])
                    [thc_10mg] [] thc_15mg [] []))
             thc_10mg
             (RuleComparisonResult.mk false
                (Some "THC limit increased from 10mg to 15mg")));
      reflexivity.
Defined.

Lemma classifier_failure_gives_updated_witness :
  (GeminiService.compare_rule_sets
     (scripted (Returned ResultOther) [Raised "timeout"])
     [thc_10mg] [thc_15mg; warning_rule] []).1 !! 0
    = Some (candidate thc_15mg UPDATED (Some "Comparison error: timeout")) /\
  length (GeminiService.compare_rule_sets
            (scripted (Returned ResultOther) [Raised "timeout"])
            [thc_10mg] [thc_15mg; warning_rule] []).1 = 2.
Proof.
  apply (classifier_failure_gives_updated
           (scripted (Returned ResultOther) [Raised "timeout"])
           [thc_10mg] [] thc_15mg [warning_rule] [] thc_10mg "timeout");
    reflexivity.
Defined.

Lemma duplicate_citation_last_wins_witness :
  GeminiService.existing_map_of [thc_10mg; warning_rule; thc_12mg]
    !! "ARM 42.39.301(1)" = Some thc_12mg /\
  world_after (scripted (Returned ResultOther) [Returned (Some "equivalent")])
    [thc_10mg; warning_rule; thc_12mg] ([] ++ [thc_15mg]) [] =
    world_after (scripted (Returned ResultOther) [Returned (Some "equivalent")])
      [thc_10mg; warning_rule; thc_12mg] [] []
      ++ [(ComparisonSchema,
           GeminiService._build_comparison_prompt thc_12mg thc_15mg)] /\
  (GeminiService.compare_rule_sets
     (scripted (Returned ResultOther) [Returned (Some "equivalent")])
     [thc_10mg; warning_rule; thc_12mg] ([] ++ [thc_15mg]) []).1 !! 0 =
    Some (candidate thc_15mg UNCHANGED None).
Proof.
  apply (duplicate_citation_last_wins
           (scripted (Returned ResultOther) [Returned (Some "equivalent")])
           [thc_10mg; warning_rule; thc_12mg] "ARM 42.39.301(1)" thc_12mg
           [] thc_15mg []);
    reflexivity.
Defined.

(** ** The pipeline on the test doubles *)

Lemma batch_extraction_skips_failures_witness :
  attempts second_fails (PipelineState.scraped_rules three_scraped) [] =
    [Returned [ProcessedRule.mk "Display THC content" "Display THC content"
                 "ARM 42.39.301(1)" NEW None];
     Raised "Rule extraction failed: timeout";
     Returned [ProcessedRule.mk "Use child-resistant packaging"
                 "Use child-resistant packaging" "ARM 42.39.303(1)" NEW None]]
  /\
  (Nodes.extract_rules_node second_fails three_scraped []).1 =
    [W_processed_rules
       [ProcessedRule.mk "Display THC content" "Display THC content"
          "ARM 42.39.301(1)" NEW None;
        ProcessedRule.mk "Use child-resistant packaging"
          "Use child-resistant packaging" "ARM 42.39.303(1)" NEW None];
     W_error None].
Proof.
  split; [reflexivity|].
  apply (proj2 (proj2 (batch_extraction_skips_failures
                         second_fails three_scraped [] eq_refl))).
Defined.

Lemma scrape_error_overwritten_witness :
  PipelineState.error
    (Workflow.run_node (Nodes.scrape_node scrape_down)
       (create_initial_state MONTANA "flower" (Some [thc_10mg])) []).1
    = Some "Scraping failed: Firecrawl extraction failed: timeout" /\
  (Workflow.run_extraction_workflow scrape_down MONTANA "flower"
     (Some [thc_10mg]) []).1
    = ExtractionResponse.mk true "montana" "flower" EmptyString 0 [] None.
Proof.
  split; [reflexivity|].
  apply (proj2 (scrape_error_overwritten scrape_down MONTANA "flower"
                  (Some [thc_10mg]) []
                  "Scraping failed: Firecrawl extraction failed: timeout"
                  eq_refl)).
Defined.

Lemma updated_without_reason_witness :
  (GeminiService.compare_rule_sets
     (scripted (Returned ResultOther) [Returned (Some "different")])
     [thc_10mg] [thc_15mg] []).1 !! 0
  = Some (ProcessedRule.mk "THC Content Labeling"
            "THC limited to 15mg per serving" "ARM 42.39.301(1)" UPDATED None).
Proof.
  apply (updated_without_reason
           (scripted (Returned ResultOther) [Returned (Some "different")])
           [thc_10mg] [] thc_15mg [] [] thc_10mg
           (RuleComparisonResult.mk false None));
    reflexivity.
Defined.

Lemma compare_rule_sets_frame_witness :
  exists F h' fs,
    Store.compare_rule_sets
      (scripted (Returned ResultOther)
         [Returned (Some "changed: THC limit increased from 10mg to 15mg")])
      0 1 two_lists = Some (F, h') /\
    Store.objects two_lists `prefix_of` Store.objects h' /\
    Store.lists two_lists `prefix_of` Store.lists h' /\
    Store.lists h' !! 0 = Some [0] /\
    Store.values h' [0] = Store.values two_lists [0] /\
    length (Store.lists two_lists) <= F /\
    Store.lists h' !! F = Some fs /\
    Forall (fun r => length (Store.objects two_lists) <= r) fs /\
    (Store.values h' fs, Store.calls h')
      = GeminiService.compare_rule_sets
          (scripted (Returned ResultOther)
             [Returned (Some "changed: THC limit increased from 10mg to 15mg")])
          (Store.values two_lists [0]) (Store.values two_lists [1])
          (Store.calls two_lists).
Proof.
  apply (compare_rule_sets_frame
           (scripted (Returned ResultOther)
              [Returned (Some "changed: THC limit increased from 10mg to 15mg")])
           two_lists 0 1 [0] [1]).
  - reflexivity.
  - reflexivity.
  - repeat constructor.
  - repeat constructor.
Defined.

(** The run of the witness, in full: the two rules and the two lists are
    as they were, one instance and one list were added. *)
Example compare_rule_sets_on_two_lists :
  Store.compare_rule_sets
    (scripted (Returned ResultOther)
       [Returned (Some "changed: THC limit increased from 10mg to 15mg")])
    0 1 two_lists
  = Some (2, Store.mk
               [thc_10mg; thc_15mg;
                candidate thc_15mg UPDATED
                  (Some "THC limit increased from 10mg to 15mg")]
               [[0]; [1]; [2]]
               [(ComparisonSchema,
                 GeminiService._build_comparison_prompt thc_10mg thc_15mg)]).
Proof. reflexivity. Qed.

(** The prior list used as the candidate list as well: the one rule is
    compared with itself, and is still not written. *)
Example compare_rule_sets_on_shared_list :
  Store.compare_rule_sets
    (scripted (Returned ResultOther) [Returned (Some "equivalent")])
    0 0 (Store.mk [thc_10mg] [[0]] [])
  = Some (1, Store.mk
               [thc_10mg; candidate thc_10mg UNCHANGED None]
               [[0]; [1]]
               [(ComparisonSchema,
                 GeminiService._build_comparison_prompt thc_10mg thc_10mg)]).
Proof. reflexivity. Qed.

(** No prior rules and two candidates: both are NEW, nothing is asked. *)
Example compare_node_without_prior :
  Nodes.compare_node (scripted (Returned ResultOther) [])
    (PipelineState.mk MONTANA "flower" [] EmptyString []
       [thc_15mg; warning_rule] [] None) []
  = ([W_final_rules [candidate thc_15mg NEW None;
                     candidate warning_rule NEW None];
      W_error None], []).
Proof. reflexivity. Qed.

(** A whole run: one record scraped, one rule extracted from it, one prior
    rule with the same citation, a classifier that reports a change. *)
Example run_with_one_prior_rule :
  Workflow.run_extraction_workflow
    (scripted
       (Returned (ResultWithData (Some [scraped_record])))
       [Returned (Some "THC limited to 15mg per serving");
        Returned (Some "changed: THC limit increased from 10mg to 15mg")])
    MONTANA "flower" (Some [thc_10mg]) []
  = (ExtractionResponse.mk true "montana" "flower"
       "https://rules.mt.gov/browse/collections/aec52c46-128e-4279-9068-8af5d5432d74/sections/e99998bd-fc2a-4eed-9405-9cfd464de88e"
       1
       [ProcessedRule.mk "THC limited to 15mg per serving"
          "THC limited to 15mg per serving" "ARM 42.39.301(1)" UPDATED
          (Some "THC limit increased from 10mg to 15mg")]
       None,
     [(ExtractionSchema,
       GeminiService._build_extraction_prompt "All products must display THC content");
      (ComparisonSchema,
       GeminiService._build_comparison_prompt thc_10mg
         (ProcessedRule.mk "THC limited to 15mg per serving"
            "THC limited to 15mg per serving" "ARM 42.39.301(1)" NEW None))]).
Proof. vm_compute. reflexivity. Qed.

(** * Further properties *)

(** ** Extraction of one text and of a batch *)

Section ExtractionShape.

Variable env : Env.

Lemma foldl_snoc_map {A B} (f : A -> B) (l : list A) (acc : list B) :
  foldl (fun acc x => acc ++ [f x]) acc l = acc ++ map f l.
Proof.
  revert acc. induction l as [|x l IH]; intros acc; simpl.
  - by rewrite app_nil_r.
  - by rewrite IH, <- app_assoc.
Qed.

Lemma extract_rules_from_text_spec rule_text citation w :
  GeminiService.extract_rules_from_text env rule_text citation w =
  (match extraction_report env w rule_text with
   | Raised e => Raised ("Rule extraction failed: " +:+ e)
   | Returned res =>
       Returned (map (GeminiService.processed_of_extracted citation)
                     (RuleExtractionResult.rules res))
   end,
   w ++ [(ExtractionSchema, GeminiService._build_extraction_prompt rule_text)]).
Proof.
  unfold GeminiService.extract_rules_from_text, extraction_report,
    try_reraise, bind_try, bind, GeminiService.generate_content,
    GeminiService.response_text, returns, raise, ret.
  destruct (gemini_generate env w ExtractionSchema _) as [e|[text|]];
    simpl; try reflexivity.
  destruct (truthy_str text); simpl; try reflexivity.
  destruct (validate_extraction env text) as [e|res]; simpl; [reflexivity|].
  by rewrite foldl_snoc_map.
Qed.


(** X2. A response with no text (absent or empty) makes
    [extract_rules_from_text] raise, with the message of the empty
    response under the prefix of the function; the request is logged all
    the same. *)
Theorem empty_response_fails_extraction rule_text citation w text :
  gemini_generate env w ExtractionSchema
    (GeminiService._build_extraction_prompt rule_text) = Returned text ->
  truthy_opt text = false ->
  GeminiService.extract_rules_from_text env rule_text citation w =
  (Raised "Rule extraction failed: Gemini returned empty response",
   w ++ [(ExtractionSchema, GeminiService._build_extraction_prompt rule_text)]).
Proof.
  intros Hgen Htext. rewrite extract_rules_from_text_spec.
  unfold extraction_report. rewrite Hgen.
  destruct text as [s|]; [|reflexivity].
  simpl in Htext. by rewrite Htext.
Qed.

Lemma attempts_rules rs w :
  Forall (fun a =>
            Forall (fun r => ProcessedRule.status r = NEW
                             /\ ProcessedRule.change_reason r = None
                             /\ ProcessedRule.rule_text_citation r
                                  ∈ map Rule.rule_text_citation rs)
                   (successes a))
         (attempts env rs w).
Proof.
  revert w. induction rs as [|r rs IH]; intros w; simpl; [constructor|].
  rewrite extract_rules_from_text_spec.
  constructor.
  - destruct (extraction_report env w (Rule.rule_text r)) as [e|res]; simpl;
      [constructor|].
    apply Forall_map, Forall_forall. intros x _. simpl.
    repeat split. apply list_elem_of_here.
  - eapply Forall_impl; [apply IH|].
    intros a Ha. eapply Forall_impl; [apply Ha|].
    intros x (? & ? & ?). repeat split; try done. by apply list_elem_of_further.
Qed.

(** X3. Every rule the batch extraction returns has status NEW, no reason,
    and the citation of one of the scraped rules. *)
Theorem batch_rules_are_new_and_cited rs w :
  Forall (fun r => ProcessedRule.status r = NEW
                   /\ ProcessedRule.change_reason r = None
                   /\ ProcessedRule.rule_text_citation r
                        ∈ map Rule.rule_text_citation rs)
         (GeminiService.extract_rules_from_scraped_data env rs w).1.
Proof.
  unfold GeminiService.extract_rules_from_scraped_data.
  rewrite batch_loop_spec. simpl.
  apply Forall_concat, Forall_map. apply attempts_rules.
Qed.

(** X4. The batch extraction sends the model exactly one request per
    scraped rule, in input order, whether the attempts succeed or not: no
    retry, and no request skipped after a failure. *)
Theorem batch_sends_one_request_per_rule rs w :
  (GeminiService.extract_rules_from_scraped_data env rs w).2
    = w ++ extraction_prompts rs.
Proof.
  unfold GeminiService.extract_rules_from_scraped_data.
  generalize (@nil ProcessedRule) as acc.
  revert w. induction rs as [|r rs IH]; intros w acc; simpl.
  - by rewrite app_nil_r.
  - unfold bind at 1. unfold try_except at 1, bind_try, bind.
    pose proof (f_equal snd (extract_rules_from_text_spec (Rule.rule_text r)
                               (Rule.rule_text_citation r) w)) as Hw.
    destruct (GeminiService.extract_rules_from_text env _ _ w) as [[e|l] w1];
      simpl in *; rewrite IH; subst w1; by rewrite <- app_assoc.
Qed.

End ExtractionShape.

(** ** More on the reconciliation *)

Section ReconciliationShape.

Variable env : Env.

Lemma existing_map_of_None P c :
  GeminiService.existing_map_of P !! c = None <-> c ∉ citations P.
Proof.
  unfold citations.
  induction P as [|p P IH] using rev_ind.
  - split; [intros _; apply not_elem_of_nil|done].
  - rewrite existing_map_of_snoc, map_app, lookup_insert. simpl.
    rewrite not_elem_of_app, list_elem_of_singleton.
    destruct (decide (ProcessedRule.rule_text_citation p = c)) as [Hc|Hc].
    + split; [done|]. intros [_ H]. by destruct H.
    + rewrite IH. split; [intros H; split; [done|congruence]|by intros [H _]].
Qed.

(** X5. The requests [compare_rule_sets] sends are the comparison of each
    candidate whose citation occurs in [P] with the prior rule the map
    holds for it, in the order of the candidates, and nothing else: one
    request per matched candidate, none for the others. *)
Theorem compare_sends_one_request_per_match P N w :
  (GeminiService.compare_rule_sets env P N w).2
    = w ++ classifier_prompts (GeminiService.existing_map_of P) N /\
  length (classifier_prompts (GeminiService.existing_map_of P) N)
    = length (filter (fun n => ProcessedRule.rule_text_citation n ∈ citations P) N).
Proof.
  split.
  - revert w. induction N as [|n N IH]; intros w.
    + rewrite compare_rule_sets_nil. simpl. by rewrite app_nil_r.
    + rewrite compare_rule_sets_cons. cbn [snd]. rewrite IH.
      unfold world_step, classifier_prompts. cbn [omap list_omap].
      destruct (_ !! _); [by rewrite <- app_assoc|done].
  - induction N as [|n N IH]; [done|].
    unfold classifier_prompts in *. cbn [omap list_omap].
    rewrite filter_cons.
    pose proof (existing_map_of_None P (ProcessedRule.rule_text_citation n)) as HN.
    destruct (GeminiService.existing_map_of P
                !! ProcessedRule.rule_text_citation n) as [p|].
    + rewrite decide_True; [simpl; by rewrite IH|].
      destruct (decide (ProcessedRule.rule_text_citation n ∈ citations P))
        as [|Hn]; [done|]. by apply HN in Hn.
    + rewrite decide_False; [done|]. by apply HN.
Qed.

(** X6. A candidate leaves [compare_rule_sets] with status NEW exactly when
    no rule of [P] carries its citation: a matched candidate is UNCHANGED
    or UPDATED, whatever the classifier does. *)
Theorem new_exactly_when_unmatched P N w :
  Forall2 (fun n r => ProcessedRule.status r = NEW
                      <-> ProcessedRule.rule_text_citation n ∉ citations P)
          N (GeminiService.compare_rule_sets env P N w).1.
Proof.
  revert w. induction N as [|n N IH]; intros w.
  - constructor.
  - rewrite compare_rule_sets_cons. constructor; [|apply IH].
    simpl. rewrite <- existing_map_of_None. unfold verdict.
    destruct (_ !! _) as [p|]; [|done].
    destruct (classifier_report _ _ _ _) as [e|res]; simpl; [done|].
    by destruct (RuleComparisonResult.are_equivalent res).
Qed.

Lemma existing_map_of_all_new P :
  GeminiService.existing_map_of (all_new P)
  = (fun p => candidate p NEW None) <$> GeminiService.existing_map_of P.
Proof.
  induction P as [|p P IH] using rev_ind.
  - unfold GeminiService.existing_map_of. simpl. by rewrite fmap_empty.
  - unfold all_new in *. rewrite map_app. simpl.
    rewrite !existing_map_of_snoc, IH, fmap_insert. reflexivity.
Qed.

(** X7. [compare_rule_sets] reads neither the status nor the reason its
    inputs carry: with both lists reset to NEW and no reason it returns the
    same rules and sends the same requests.  (The prompt shows the name
    and the description only.) *)
Theorem compare_ignores_input_status P N w :
  GeminiService.compare_rule_sets env (all_new P) (all_new N) w
  = GeminiService.compare_rule_sets env P N w.
Proof.
  revert w. induction N as [|n N IH]; intros w.
  - reflexivity.
  - change (all_new (n :: N)) with (candidate n NEW None :: all_new N).
    rewrite !compare_rule_sets_cons.
    assert (Hv : verdict env (GeminiService.existing_map_of (all_new P))
                   (candidate n NEW None) w
                 = verdict env (GeminiService.existing_map_of P) n w).
    { unfold verdict. rewrite existing_map_of_all_new, lookup_fmap. simpl.
      by destruct (_ !! _). }
    assert (Hw : world_step (GeminiService.existing_map_of (all_new P))
                   (candidate n NEW None) w
                 = world_step (GeminiService.existing_map_of P) n w).
    { unfold world_step. rewrite existing_map_of_all_new, lookup_fmap. simpl.
      by destruct (_ !! _). }
    by rewrite Hv, Hw, IH.
Qed.

End ReconciliationShape.

(** ** The scraping service *)

Section Scraping.

Variable env : Env.


(** X8. For every state and product type the prompt of the scraping
    service is built without error, with the URL configured for the
    state; a product type that is none of the four known ones is
    described as "all". *)
Theorem scraping_prompt_falls_back_to_all st pt :
  (exists prompt,
     FirecrawlService._build_extraction_prompt st pt
     = Returned (prompt, "https://rules.mt.gov/browse/collections/aec52c46-128e-4279-9068-8af5d5432d74/sections/e99998bd-fc2a-4eed-9405-9cfd464de88e")) /\
  (pt ∉ ["flower"; "concentrates"; "edibles"; "all"] ->
   FirecrawlService._build_extraction_prompt st pt
   = FirecrawlService._build_extraction_prompt st "all").
Proof.
  destruct st. split.
  - unfold FirecrawlService._build_extraction_prompt. simpl. by eexists.
  - intros Hpt.
    unfold FirecrawlService._build_extraction_prompt. simpl.
    assert (FirecrawlService.PRODUCT_TYPE_DESCRIPTIONS !! pt = None) as ->;
      [|reflexivity].
    unfold FirecrawlService.PRODUCT_TYPE_DESCRIPTIONS. simpl.
    rewrite !lookup_insert_ne, lookup_empty; [done|..];
      intros <-; apply Hpt; set_solver.
Qed.


(** X10. When the agent raises, the scrape node catches it: it writes no
    scraped rule, an empty source URL, and the message of the agent under
    the prefixes of the service and of the node; it makes no request to
    the model. *)
Theorem scrape_node_reports_agent_failure s w prompt url e :
  firecrawl_init env = Returned tt ->
  FirecrawlService._build_extraction_prompt (PipelineState.state s)
    (PipelineState.product_type s) = Returned (prompt, url) ->
  firecrawl_agent env url prompt = Raised e ->
  Nodes.scrape_node env s w =
  ([W_scraped_rules []; W_source_url EmptyString;
    W_error (Some ("Scraping failed: Firecrawl extraction failed: " +:+ e))],
   w).
Proof.
  intros Hi Hp Ha. rewrite scrape_node_spec, Hi.
  unfold FirecrawlService.extract_rules. by rewrite Hp, Ha.
Qed.

End Scraping.

(** ** The run as a whole *)

Section WholeRun.

Variable env : Env.

Lemma run_node_format_eq s w :
  Workflow.run_node Nodes.format_response_node s w =
  (apply_update s
     (if negb (truthy_list (PipelineState.existing_rules s))
         && negb (truthy_list (PipelineState.final_rules s))
         && truthy_list (PipelineState.processed_rules s)
      then [W_final_rules (all_new (PipelineState.processed_rules s));
            W_error None]
      else [W_error None]), w).
Proof. by rewrite run_node_eq, format_response_node_spec. Qed.

Lemma compare_node_spec s w :
  Nodes.compare_node env s w =
  match PipelineState.existing_rules s with
  | [] => ([W_final_rules (all_new (PipelineState.processed_rules s));
            W_error None], w)
  | _ :: _ =>
      match gemini_init env with
      | Raised e =>
          ([W_final_rules []; W_error (Some ("Comparison failed: " +:+ e))], w)
      | Returned _ =>
          let r := GeminiService.compare_rule_sets env
                     (PipelineState.existing_rules s)
                     (PipelineState.processed_rules s) w in
          ([W_final_rules r.1; W_error None], r.2)
      end
  end.
Proof.
  unfold Nodes.compare_node, try_except, bind_try, bind,
    Nodes.get_gemini_service, returns, ret.
  destruct (PipelineState.existing_rules s) as [|p P]; simpl; [done|].
  destruct (gemini_init env) as [e|[]]; [done|].
  by destruct (GeminiService.compare_rule_sets env (p :: P) _ w).
Qed.

Lemma create_initial_state_default st pt ex :
  create_initial_state st pt ex
  = PipelineState.mk st pt (default [] ex) EmptyString [] [] [] None.
Proof. by destruct ex as [[|p P]|]. Qed.

(** X11. When both services are available and the scrape returns, a run
    is the composition of its stages: the scraped rules go through the
    batch extraction, the extracted rules through [compare_rule_sets]
    against the prior rules (none when the request has none), and the
    response is a success that carries the scrape URL and exactly the
    rules [compare_rule_sets] returns, with their count; the requests
    sent are those of the extraction followed by those of the
    comparison. *)
Theorem run_is_scrape_extract_compare st pt ex w rs url :
  firecrawl_init env = Returned tt ->
  gemini_init env = Returned tt ->
  FirecrawlService.extract_rules env st pt = Returned (rs, url) ->
  let N := GeminiService.extract_rules_from_scraped_data env rs w in
  let F := GeminiService.compare_rule_sets env (default [] ex) N.1 N.2 in
  Workflow.run_extraction_workflow env st pt ex w
  = (ExtractionResponse.mk true (USState_value st) pt url
       (length F.1) F.1 None,
     F.2).
Proof.
  intros Hf Hg Hx. cbn zeta.
  unfold Workflow.run_extraction_workflow.
  rewrite bind_eq, ainvoke_eq, create_initial_state_default. cbn zeta.
  rewrite (run_node_eq (Nodes.scrape_node env)), scrape_node_spec.
  cbn [PipelineState.state PipelineState.product_type].
  rewrite Hf, Hx. cbn [fst snd]. simpl apply_update.
  set (P := default [] ex).
  set (N := GeminiService.extract_rules_from_scraped_data env rs w).
  rewrite (run_node_eq (Nodes.extract_rules_node env)).
  match goal with
  | |- context [Nodes.extract_rules_node env ?s1 w] =>
      assert (HN : Nodes.extract_rules_node env s1 w
                   = ([W_processed_rules N.1; W_error None], N.2))
        by (rewrite extract_rules_node_spec; cbn [PipelineState.scraped_rules];
            rewrite Hg; subst N; by destruct rs);
      rewrite HN; clear HN
  end.
  cbn [fst snd]. simpl apply_update.
  unfold Nodes.should_compare. cbn [PipelineState.error PipelineState.existing_rules].
  simpl truthy_opt. cbn iota.
  destruct P as [|p P'].
  - simpl truthy_list. simpl andb. cbn iota. simpl String.eqb. cbn iota.
    rewrite run_node_format_eq. cbn [fst snd].
    rewrite compare_rule_sets_empty_prior. cbn [fst snd]. unfold ret.
    f_equal. unfold Workflow.response_of. simpl.
    by destruct N.1.
  - simpl truthy_list. simpl Nat.ltb. simpl andb. cbn iota.
    simpl String.eqb. cbn iota.
    rewrite (run_node_eq (Nodes.compare_node env)), compare_node_spec.
    cbn [PipelineState.existing_rules PipelineState.processed_rules].
    rewrite Hg. cbn zeta. cbn [fst snd]. simpl apply_update.
    pose proof (compare_rule_sets_length env (p :: P') N.1 N.2) as Hlen.
    set (F := GeminiService.compare_rule_sets env (p :: P') N.1 N.2) in *.
    rewrite run_node_format_eq. cbn [fst snd]. unfold ret.
    f_equal. unfold Workflow.response_of. simpl.
    destruct F.1 as [|f F1], N.1 as [|n N1]; simpl in *; try done.
Qed.

(** X12. When the Gemini service cannot be built, a run sends no request
    to the model, whatever was scraped and whatever prior rules came with
    the request, and its response carries no rule. *)
Theorem no_gemini_no_request st pt ex w e :
  gemini_init env = Raised e ->
  (Workflow.run_extraction_workflow env st pt ex w).2 = w /\
  ExtractionResponse.rules (Workflow.run_extraction_workflow env st pt ex w).1
    = [] /\
  ExtractionResponse.total_rules_extracted
    (Workflow.run_extraction_workflow env st pt ex w).1 = 0.
Proof.
  intros Hg.
  unfold Workflow.run_extraction_workflow.
  rewrite bind_eq, ainvoke_eq, create_initial_state_default. cbn zeta.
  rewrite (run_node_eq (Nodes.scrape_node env)).
  destruct (scrape_node_shape env
              (PipelineState.mk st pt (default [] ex) EmptyString [] [] [] None) w)
    as (l & u & e0 & ->). cbn [fst snd]. simpl apply_update.
  rewrite (run_node_eq (Nodes.extract_rules_node env)), extract_rules_node_spec.
  cbn [PipelineState.scraped_rules]. rewrite Hg.
  destruct l as [|r l].
  - cbn [fst snd]. simpl apply_update.
    unfold Nodes.should_compare.
    cbn [PipelineState.error PipelineState.existing_rules].
    simpl truthy_opt. cbn iota.
    destruct (default [] ex) as [|p P].
    + simpl. done.
    + simpl truthy_list. simpl Nat.ltb. simpl andb. cbn iota.
      simpl String.eqb. cbn iota.
      rewrite (run_node_eq (Nodes.compare_node env)), compare_node_spec.
      cbn [PipelineState.existing_rules]. rewrite Hg. simpl. done.
  - cbn [fst snd]. simpl apply_update.
    unfold Nodes.should_compare. cbn [PipelineState.error].
    simpl truthy_opt. cbn iota. simpl String.eqb. cbn iota.
    rewrite run_node_format_eq. simpl.
    by destruct (default [] ex).
Qed.

(** X13. The format stage is idempotent: run on the state it has left, it
    changes nothing. *)
Theorem format_is_idempotent s w :
  Workflow.run_node Nodes.format_response_node
    (Workflow.run_node Nodes.format_response_node s w).1 w
  = Workflow.run_node Nodes.format_response_node s w.
Proof.
  rewrite !run_node_format_eq. cbn [fst snd].
  destruct s as [st pt ex url scraped processed final err]. simpl.
  destruct ex as [|p P], final as [|f F], processed as [|n N]; reflexivity.
Qed.

(** X14. The handler answers every request with status 200 and the
    response of the workflow run on the state, the product type and the
    prior rules of the request (an empty list of prior rules counting as
    none): it never raises the exception it keeps for a failed run. *)
Theorem endpoint_always_answers_200 request w :
  Routes.extract_rules env request w =
  (Routes.Ok (Workflow.run_extraction_workflow env
                (ExtractionRequest.state request)
                (ExtractionRequest.product_type request)
                (ExtractionRequest.existing_rules request) w).1,
   (Workflow.run_extraction_workflow env
      (ExtractionRequest.state request)
      (ExtractionRequest.product_type request)
      (ExtractionRequest.existing_rules request) w).2).
Proof.
  unfold Routes.extract_rules. rewrite bind_eq.
  set (ex' := match ExtractionRequest.existing_rules request with
              | Some l => if truthy_list l then Some l else None
              | None => None
              end).
  assert (Hrun : forall st pt,
            Workflow.run_extraction_workflow env st pt ex' w
            = Workflow.run_extraction_workflow env st pt
                (ExtractionRequest.existing_rules request) w).
  { intros st pt. unfold Workflow.run_extraction_workflow.
    rewrite !create_initial_state_default. subst ex'.
    by destruct (ExtractionRequest.existing_rules request) as [[|p P]|]. }
  rewrite Hrun.
  destruct (workflow_always_reports_success env
              (ExtractionRequest.state request)
              (ExtractionRequest.product_type request)
              (ExtractionRequest.existing_rules request) w) as [Hs _].
  by rewrite Hs.
Qed.

End WholeRun.

(** ** These properties on concrete inputs *)


Lemma empty_response_fails_extraction_witness :
  GeminiService.extract_rules_from_text
    (scripted (Returned ResultOther) [Returned (Some EmptyString)])
    "first text" "ARM 42.39.301(1)" [] =
  (Raised "Rule extraction failed: Gemini returned empty response",
   [(ExtractionSchema, GeminiService._build_extraction_prompt "first text")]).
Proof.
  apply (empty_response_fails_extraction
           (scripted (Returned ResultOther) [Returned (Some EmptyString)])
           "first text" "ARM 42.39.301(1)" [] (Some EmptyString));
    reflexivity.
Defined.

Lemma scraping_prompt_falls_back_to_all_witness :
  FirecrawlService._build_extraction_prompt MONTANA "tinctures"
  = FirecrawlService._build_extraction_prompt MONTANA "all".
Proof.
  apply (proj2 (scraping_prompt_falls_back_to_all MONTANA "tinctures")).
  apply (bool_decide_unpack _). reflexivity.
Defined.


Lemma scrape_node_reports_agent_failure_witness :
  Nodes.scrape_node scrape_down
    (create_initial_state MONTANA "flower" None) [] =
  ([W_scraped_rules []; W_source_url EmptyString;
    W_error (Some "Scraping failed: Firecrawl extraction failed: timeout")],
   []).
Proof.
  eapply (scrape_node_reports_agent_failure scrape_down
            (create_initial_state MONTANA "flower" None) [] _ _ "timeout");
    reflexivity.
Defined.

Lemma run_is_scrape_extract_compare_witness :
  Workflow.run_extraction_workflow one_record_changed MONTANA "flower"
    (Some [thc_10mg]) []
  = (ExtractionResponse.mk true "montana" "flower"
       "https://rules.mt.gov/browse/collections/aec52c46-128e-4279-9068-8af5d5432d74/sections/e99998bd-fc2a-4eed-9405-9cfd464de88e"
       1
       [ProcessedRule.mk "THC limited to 15mg per serving"
          "THC limited to 15mg per serving" "ARM 42.39.301(1)" UPDATED
          (Some "THC limit increased from 10mg to 15mg")]
       None,
     [(ExtractionSchema,
       GeminiService._build_extraction_prompt "All products must display THC content");
      (ComparisonSchema,
       GeminiService._build_comparison_prompt thc_10mg
         (ProcessedRule.mk "THC limited to 15mg per serving"
            "THC limited to 15mg per serving" "ARM 42.39.301(1)" NEW None))]).
Proof.
  apply (run_is_scrape_extract_compare one_record_changed MONTANA "flower"
           (Some [thc_10mg]) []
           [Rule.mk "42.39.301" "2023-01-01"
              "All products must display THC content" "ARM 42.39.301(1)"]
           "https://rules.mt.gov/browse/collections/aec52c46-128e-4279-9068-8af5d5432d74/sections/e99998bd-fc2a-4eed-9405-9cfd464de88e");
    reflexivity.
Defined.

Lemma no_gemini_no_request_witness :
  (Workflow.run_extraction_workflow gemini_down MONTANA "flower"
     (Some [thc_10mg]) []).2 = [] /\
  ExtractionResponse.rules
    (Workflow.run_extraction_workflow gemini_down MONTANA "flower"
       (Some [thc_10mg]) []).1 = [] /\
  ExtractionResponse.total_rules_extracted
    (Workflow.run_extraction_workflow gemini_down MONTANA "flower"
       (Some [thc_10mg]) []).1 = 0.
Proof.
  apply (no_gemini_no_request gemini_down MONTANA "flower" (Some [thc_10mg]) []
           "GOOGLE_API_KEY missing").
  reflexivity.
Defined.
